(** * PyAflow: the AFLUX request client ([src/aflow.py])

    A shallow embedding of class [AflowAPI] and the properties of its
    query validation, URL construction and per-entry helpers.

    Python [str] values are modelled as [string]; one [ascii] stands for
    one code point, so the model covers the strings whose code points
    are below 256 (Latin-1).  The character tests [isspace], [isalpha]
    and [isnumeric] follow the Unicode tables of CPython on that range. *)

From Stdlib Require Import String Ascii List ZArith Lia Bool.
From Stdlib Require Import DecimalString DecimalPos DecimalZ.
From stdpp Require Import gmap strings.
Import ListNotations.

Local Open Scope Z_scope.

#[local] Arguments String.append !s1 s2 : simpl nomatch.

(** ** Characters and the [str] methods the client uses *)

Module Py.

Definition ord (c : ascii) : N := N_of_ascii c.

Definition between (lo hi : N) (c : ascii) : bool :=
  ((lo <=? ord c) && (ord c <=? hi))%N.

(** [str.isspace] on one character: TAB..CR, FS..US, space, NEL, NBSP. *)
Definition isspace (c : ascii) : bool :=
  between 9 13 c || between 28 32 c || between 133 133 c || between 160 160 c.

(** [str.isalpha] on one character: the letters of Latin-1. *)
Definition isalpha (c : ascii) : bool :=
  between 65 90 c || between 97 122 c
  || between 170 170 c || between 181 181 c || between 186 186 c
  || between 192 214 c || between 216 246 c || between 248 255 c.

(** [str.isnumeric] on one character: the digits, the superscripts
    one to three and the vulgar fractions of Latin-1. *)
Definition isnumeric (c : ascii) : bool :=
  between 48 57 c || between 178 179 c || between 185 185 c || between 188 190 c.

Definition DQUOTE : ascii := "034"%char.
Definition LF : ascii := "010"%char.
Definition TAB : ascii := "009"%char.

(** [string.punctuation] *)
Definition punctuation : string :=
  "!" +:+ String DQUOTE "#$%&'()*+,-./:;<=>?@[\]^_`{|}~".

(** [c in s] for a one-character [c]. *)
Definition char_in (c : ascii) (s : string) : bool :=
  existsb (Ascii.eqb c) (list_ascii_of_string s).

(** [key in s]: substring test. *)
Fixpoint contains (key s : string) : bool :=
  String.prefix key s
  || match s with
     | EmptyString => false
     | String _ s' => contains key s'
     end.

(** [s.replace(old, new)] for a non-empty [old]: a left-to-right scan that
    replaces each occurrence and resumes after it; [skip] counts the
    characters of the current occurrence still to be passed over. *)
Fixpoint replace_from (old new : string) (skip : nat) (s : string) : string :=
  match s with
  | EmptyString => EmptyString
  | String c s' =>
      match skip with
      | S k => replace_from old new k s'
      | O =>
          if String.prefix old s
          then new +:+ replace_from old new (Nat.pred (String.length old)) s'
          else String c (replace_from old new 0 s')
      end
  end.

(** With an empty [old], Python puts [new] before every character and
    at the end. *)
Fixpoint replace_empty (new s : string) : string :=
  match s with
  | EmptyString => new
  | String c s' => new +:+ String c (replace_empty new s')
  end.

Definition replace (old new s : string) : string :=
  match old with
  | EmptyString => replace_empty new s
  | String _ _ => replace_from old new 0 s
  end.

(** [s.split(sep)] for a one-character separator. *)
Fixpoint split (sep : ascii) (s : string) : list string :=
  match s with
  | EmptyString => [EmptyString]
  | String c s' =>
      if Ascii.eqb c sep then EmptyString :: split sep s'
      else match split sep s' with
           | [] => [String c EmptyString]
           | w :: ws => String c w :: ws
           end
  end.

(** [sep.join(parts)] *)
Fixpoint join (sep : string) (parts : list string) : string :=
  match parts with
  | [] => EmptyString
  | [p] => p
  | p :: ps => p +:+ sep +:+ join sep ps
  end.

Fixpoint lstrip (s : string) : string :=
  match s with
  | EmptyString => EmptyString
  | String c s' => if isspace c then lstrip s' else s
  end.

Fixpoint rstrip (s : string) : string :=
  match s with
  | EmptyString => EmptyString
  | String c s' =>
      match rstrip s' with
      | EmptyString => if isspace c then EmptyString else String c EmptyString
      | r => String c r
      end
  end.

(** [s.strip()] *)
Definition strip (s : string) : string := rstrip (lstrip s).

(** [str(n)] for an [int]. *)
Definition str_of_int (n : Z) : string := NilZero.string_of_int (Z.to_int n).

(** [l.insert(i, x)]: past the end the element is appended. *)
Definition list_insert {A} (i : nat) (x : A) (l : list A) : list A :=
  firstn i l ++ x :: skipn i l.

End Py.

(** ** Values, errors and the world the client runs in *)

(** A decoded JSON value ([AfluxResponse], and the values of an entry).
    A float carries its printed form. *)
#[warnings="-register-all"] Inductive Json : Type :=
  | JNull
  | JBool (b : bool)
  | JInt (n : Z)
  | JFloat (repr : string)
  | JStr (s : string)
  | JArr (items : list Json)
  | JObj (fields : list (string * Json)).

(** The exceptions the client's code paths can end in. *)
Inductive Exn : Type :=
  | ValueError (msg : string)
  | RuntimeError (msg : string)
  | AttributeError (name : string)
  | IndexError
  | KeyError (key : string)
  | TypeError
  | RequestException (msg : string).

(** What [response.json()] ends in: the decoded body;
    [JSONDecodeError] for a body that is not JSON; or one of the two
    exceptions that the decoder raises on a body that is JSON, the
    [ValueError] for an integer with more digits than the interpreter
    converts and [RecursionError], which is a [RuntimeError], for a body
    nested too deep. *)
Inductive JsonResult : Type :=
  | Decoded (value : Json)
  | JSONDecodeError
  | DigitLimitExceeded (msg : string)
  | RecursionError (msg : string).

(** What [requests.Response] offers the client: [http_error] is the
    message of the [HTTPError] that [raise_for_status] raises, if the
    status is not a success; [json] is what [response.json()] ends in. *)
Record Response : Type := {
  http_error : option string;
  text : string;
  json : JsonResult
}.

(** [session.get(url)] either gives a response or raises, when no
    response was obtained. *)
Inductive GetResult : Type :=
  | Responded (r : Response)
  | Failed (msg : string).

(** Entries are dictionaries owned by the caller; the client gets a
    reference.  The world holds the objects, the GET requests issued
    so far (oldest first) and the lines printed so far. *)
Record World : Type := {
  heap : nat -> gmap string Json;
  gets : list string;
  stdout : list string
}.

Definition M (A : Type) : Type := World -> (Exn + A) * World.

Definition ret {A} (a : A) : M A := fun w => (inr a, w).

Definition raise {A} (e : Exn) : M A := fun w => (inl e, w).

Definition bind {A B} (m : M A) (k : A -> M B) : M B :=
  fun w =>
    match m w with
    | (inl e, w') => (inl e, w')
    | (inr a, w') => k a w'
    end.

Notation "x <- m ;; k" := (bind m (fun x => k))
  (at level 100, m at next level, right associativity).
Notation "m ;;; k" := (bind m (fun _ => k))
  (at level 100, right associativity).

(** [try: m except RuntimeError: h] *)
Definition except_RuntimeError {A} (m : M A) (h : M A) : M A :=
  fun w =>
    match m w with
    | (inl (RuntimeError _), w') => h w'
    | r => r
    end.

Definition lift {A} (r : Exn + A) : M A := fun w => (r, w).

Definition print (line : string) : M unit :=
  fun w => (inr tt, {| heap := heap w; gets := gets w; stdout := stdout w ++ [line] |}).

(** Dereference an entry. *)
Definition deref (entry : nat) : M (gmap string Json) :=
  fun w => (inr (heap w entry), w).

(** A computation that leaves every object of the heap as it found it. *)
Definition keeps_heap {A} (m : M A) : Prop :=
  forall w, heap (snd (m w)) = heap w.

(** [obj[key]] on a decoded value. *)
Definition getitem (obj : Json) (key : string) : Exn + Json :=
  match obj with
  | JObj fields =>
      match find (fun kv => String.eqb (fst kv) key) fields with
      | Some kv => inr (snd kv)
      | None => inl (KeyError key)
      end
  | _ => inl TypeError
  end.

Definition chars (s : string) : list string :=
  map (fun c => String c EmptyString) (list_ascii_of_string s).

(** The strings a value yields when [str.join] iterates over it. *)
Definition iter_strs (v : Json) : Exn + list string :=
  match v with
  | JArr items =>
      fold_right
        (fun item acc =>
           match item, acc with
           | JStr s, inr l => inr (s :: l)
           | _, inl e => inl e
           | _, _ => inl TypeError
           end) (inr []) items
  | JStr s => inr (chars s)
  | JObj fields => inr (map fst fields)
  | _ => inl TypeError
  end.

(** [str(v)], as an f-string formats a decoded value; [repr] prints
    lists and dictionaries. *)
Definition format_value (repr : Json -> string) (v : Json) : string :=
  match v with
  | JNull => "None"
  | JBool true => "True"
  | JBool false => "False"
  | JInt n => Py.str_of_int n
  | JFloat r => r
  | JStr s => s
  | _ => repr v
  end.

(** [v.replace(old, new)]: only a [str] has the method. *)
Definition str_replace (v : Json) (old new : string) : Exn + string :=
  match v with
  | JStr s => inr (Py.replace old new s)
  | _ => inl (AttributeError "replace")
  end.

(** [l[i]] on a list and [s[0]] on a string. *)
Definition list_getitem {A} (l : list A) (i : nat) : Exn + A :=
  match nth_error l i with
  | Some x => inr x
  | None => inl IndexError
  end.

Definition str_first (s : string) : Exn + ascii :=
  match s with
  | String c _ => inr c
  | EmptyString => inl IndexError
  end.

(** [entry[key]] on a dictionary. *)
Definition dict_getitem (d : gmap string Json) (key : string) : Exn + Json :=
  match d !! key with
  | Some v => inr v
  | None => inl (KeyError key)
  end.

(** [key in d.keys()] *)
Definition has_key (key : string) (d : gmap string Json) : bool :=
  match d !! key with
  | Some _ => true
  | None => false
  end.

(** [paging or default] on an optional [int]: [None] and [0] are falsy. *)
Definition py_or (paging : option Z) (default : Z) : Z :=
  match paging with
  | None => default
  | Some p => if p =? 0 then default else p
  end.

(** ** Class [AflowAPI] *)

Module AflowAPI.
Section Class.

(** The constants of [src.utils.constants], which the class copies into
    its attributes.  [API_OPERATORS] and [API_KEYWORDS] are collections
    of strings, the keywords in their iteration order. *)
Variables SERVER API : string.
Variable DEFAULT_PAGING : Z.
Variable API_KEYWORDS : list string.
Variable API_OPERATORS : list string.

(** The network: what [self.session.get] answers for a URL. *)
Variable session_get : string -> GetResult.

(** How [str] prints a decoded list or dictionary. *)
Variable repr : Json -> string.

Definition _make_request (url : string) : M Response :=
  fun w =>
    let w' := {| heap := heap w; gets := gets w ++ [url]; stdout := stdout w |} in
    match session_get url with
    | Failed msg => (inl (RequestException msg), w')
    | Responded response =>
        match http_error response with
        | Some e =>
            (inl (RuntimeError
                    ("Failed to download AFLUX data."
                       +:+ String Py.LF (String Py.TAB e))), w')
        | None => (inr response, w')
        end
    end.

(** The loop of [_is_query_valid] over [API_KEYWORDS]. *)
Definition strip_keywords (query_keywords : string) : string :=
  fold_left
    (fun acc key => if Py.contains key acc then Py.replace key "" acc else acc)
    API_KEYWORDS query_keywords.

Definition _is_query_valid (query : string) : bool :=
  let check_spaces := existsb Py.isspace (list_ascii_of_string query) in
  let query_operators :=
    List.filter (fun c => Py.char_in c Py.punctuation) (list_ascii_of_string query) in
  let check_operators :=
    forallb (fun c => existsb (String.eqb (String c "")) API_OPERATORS)
      query_operators in
  let query_keywords :=
    string_of_list_ascii (List.filter Py.isalpha (list_ascii_of_string query)) in
  let query_keywords := strip_keywords query_keywords in
  let check_keywords := Nat.eqb (String.length query_keywords) 0 in
  check_spaces && check_operators && check_keywords.

Definition base_url : string := SERVER +:+ API.

(** The URL that [request] computes once the arguments are accepted. *)
Definition request_url (matchbook : string) (paging chunk_size : option Z)
    (no_directives : bool) : string :=
  let paging := py_or paging DEFAULT_PAGING in
  let paging_str :=
    match chunk_size with
    | Some c =>
        "$paging(" +:+ Py.str_of_int paging +:+ "," +:+ Py.str_of_int c +:+ ")"
    | None => "$paging(" +:+ Py.str_of_int paging +:+ ")"
    end in
  let request_url := base_url +:+ matchbook in
  if negb no_directives
  then (request_url +:+ paging_str) +:+ "format(json)"
  else request_url.

Definition request (matchbook : string) (paging chunk_size : option Z)
    (no_directives : bool) : M Json :=
  if match chunk_size with Some c => c <? 1 | None => false end
  then raise (ValueError "chunk_size must be greater than 0")
  else if match paging with Some p => p <? 0 | None => false end
  then raise (ValueError "paging must be greater than or equal to 0")
  else if negb (_is_query_valid matchbook)
  then raise (ValueError "Invalid query: contains invalid characters or keywords")
  else
    response <-
      _make_request (request_url matchbook paging chunk_size no_directives) ;;
    match json response with
    | Decoded json_response => ret json_response
    | JSONDecodeError =>
        raise (RuntimeError "Failed to decode AFLUX response as JSON")
    | DigitLimitExceeded msg => raise (ValueError msg)
    | RecursionError msg => raise (RuntimeError msg)
    end.

(** The names an [AflowAPI] object has besides [request]: class
    constants, the other methods, the property and the two instance
    attributes. *)
Definition other_attributes : list string :=
  [ "SERVER"; "API"; "PROTOCOLS"; "STATUS_FORCELIST"; "API_KEYWORDS";
    "API_OPERATORS"; "DEFAULT_PAGING"; "__init__"; "__enter__"; "__exit__";
    "_create_session"; "_make_request"; "_is_query_valid"; "base_url";
    "help"; "get_contcar"; "get_property"; "max_retries"; "session" ].

(** [self.<name>(matchbook, no_directives=...)]: [request] is the one
    attribute that accepts the call; a name the object does not have
    raises [AttributeError]. *)
Definition call_method (name : string) (matchbook : string)
    (no_directives : bool) : M Json :=
  if String.eqb name "request" then request matchbook None None no_directives
  else if existsb (String.eqb name) other_attributes then raise TypeError
  else raise (AttributeError name).

(** The body of [help], with the name of the method it calls on [self]. *)
Definition help_via (method : string) (keyword : option string) : M unit :=
  match keyword with
  | None =>
      help_data <- call_method method "" true ;;
      lines <- lift (iter_strs help_data) ;;
      print (Py.join (String Py.LF "") lines)
  | Some keyword =>
      if negb (_is_query_valid keyword)
      then raise (ValueError "Invalid query: contains invalid keywords")
      else
        fetched <-
          except_RuntimeError
            (help_data <- call_method method ("help(" +:+ keyword +:+ ")") true ;;
             ret (Some help_data))
            (print ("No help information found for keyword: " +:+ keyword) ;;;
             ret None) ;;
        match fetched with
        | None => ret tt
        | Some help_data =>
            entry <- lift (getitem help_data keyword) ;;
            let help_str := keyword +:+ ":" +:+ String Py.LF "" in
            description <- lift (getitem entry "description") ;;
            let help_str :=
              help_str +:+ "  description: " +:+ format_value repr description
                +:+ String Py.LF "" in
            units <- lift (getitem entry "units") ;;
            let help_str :=
              help_str +:+ "  units: " +:+ format_value repr units
                +:+ String Py.LF "" in
            status <- lift (getitem entry "status") ;;
            let help_str :=
              help_str +:+ "  status: " +:+ format_value repr status
                +:+ String Py.LF "" in
            comment_field <- lift (getitem entry "__comment__") ;;
            comment_lines <- lift (iter_strs comment_field) ;;
            let comment :=
              Py.strip (Py.join (String Py.LF "    ") comment_lines) in
            let help_str :=
              match comment with
              | EmptyString => help_str
              | _ => help_str +:+ "  comment:" +:+ String Py.LF "    " +:+ comment
              end in
            print help_str
        end
  end.

(** [help] calls [self.aflux_request]. *)
Definition help (keyword : option string) : M unit :=
  help_via "aflux_request" keyword.

Definition get_contcar (entry : nat) : M string :=
  e <- deref entry ;;
  if negb (has_key "aurl" e)
  then raise (ValueError "Invalid entry: missing 'aurl' key.")
  else
    v <- lift (dict_getitem e "aurl") ;;
    aurl <- lift (str_replace v ":" "/") ;;
    let request_url := "http://" +:+ aurl +:+ "/CONTCAR.relax" in
    response <- _make_request request_url ;;
    let poscar_lines := Py.split Py.LF (text response) in
    line5 <- lift (list_getitem poscar_lines 5) ;;
    c <- lift (str_first (Py.strip line5)) ;;
    poscar_lines <-
      (if Py.isnumeric c
       then
         species <- lift (dict_getitem e "species") ;;
         names <- lift (iter_strs species) ;;
         ret (Py.list_insert 5 (Py.join " " names) poscar_lines)
       else ret poscar_lines) ;;
    ret (Py.join (String Py.LF "") poscar_lines).

(** The [for] loop of [get_property]: each turn rebinds the loop
    variable [value]; the state is the list and the last [value]. *)
Definition property_loop (property_value : list string)
    : list string * option (list string) :=
  fold_left
    (fun st value => (fst st, Some (Py.split "," (Py.strip value))))
    property_value (property_value, None).

Definition get_property (entry : nat) (property : string) : M (list string) :=
  e <- deref entry ;;
  if negb (has_key "aurl" e)
  then raise (ValueError "Invalid entry: missing 'aurl' key.")
  else
    v <- lift (dict_getitem e "aurl") ;;
    aurl <- lift (str_replace v ":" "/") ;;
    let request_url := "http://" +:+ aurl +:+ "/?" +:+ property in
    response <- _make_request request_url ;;
    let property_value := Py.split ";" (Py.strip (text response)) in
    let property_value := fst (property_loop property_value) in
    ret property_value.

End Class.
End AflowAPI.

(** ** Sample data

    Values for the constants (the documented AFLUX address of the help
    comments in [help]) and a small network, used to run the model. *)

Module Sample.

Definition SERVER : string := "https://aflow.org".
Definition API : string := "/API/aflux/?".
Definition DEFAULT_PAGING : Z := 0.
Definition KEYWORDS : list string := ["nspecies"; "species"; "Egap"; "help"].
Definition OPERATORS : list string := ["("; ")"; ","; ":"; "!"; "*"; "'"; "$"].

Definition lines (l : list string) : string := Py.join (String Py.LF "") l.

(** A structure file without the line of species names (VASP 4). *)
Definition contcar_vasp4 : string :=
  lines ["SiC"; "1.0"; " 0.0 2.2 2.2"; " 2.2 0.0 2.2"; " 2.2 2.2 0.0";
         "  1 1"; "Direct"; " 0.00 0.00 0.00"; " 0.25 0.25 0.25"].

(** The same file with the species line (VASP 5). *)
Definition contcar_vasp5 : string :=
  lines ["SiC"; "1.0"; " 0.0 2.2 2.2"; " 2.2 0.0 2.2"; " 2.2 2.2 0.0";
         "Si C"; "  1 1"; "Direct"; " 0.00 0.00 0.00"; " 0.25 0.25 0.25"].

Definition ok (body : string) (decoded : option Json) : GetResult :=
  Responded {| http_error := None; text := body;
               json := match decoded with
                       | Some value => Decoded value
                       | None => JSONDecodeError
                       end |}.

Definition not_found (url : string) : GetResult :=
  Responded {| http_error := Some ("404 Client Error: Not Found for url: " +:+ url);
               text := ""; json := JSONDecodeError |}.

Definition network (url : string) : GetResult :=
  if String.eqb url "http://aflowlib.duke.edu/AFLOWDATA/LIB2/SiC/CONTCAR.relax"
  then ok contcar_vasp4 None
  else if String.eqb url "http://aflowlib.duke.edu/AFLOWDATA/LIB2/SiC5/CONTCAR.relax"
  then ok contcar_vasp5 None
  else if String.eqb url "http://aflowlib.duke.edu/AFLOWDATA/LIB2/short/CONTCAR.relax"
  then ok "SiC" None
  else if String.eqb url "http://aflowlib.duke.edu/AFLOWDATA/LIB2/SiC/?Egap"
  then ok "1.0; 2.0;3.0" None
  else if String.prefix "https://aflow.org/API/aflux/?help(" url
  then not_found url
  else if String.prefix "https://aflow.org/API/aflux/?" url
  then ok "[]" (Some (JArr []))
  else not_found url.

Definition entry_SiC : gmap string Json :=
  {[ "aurl" := JStr "aflowlib.duke.edu:AFLOWDATA/LIB2/SiC";
     "species" := JArr [JStr "Si"; JStr "C"] ]}.

Definition entry_SiC5 : gmap string Json :=
  {[ "aurl" := JStr "aflowlib.duke.edu:AFLOWDATA/LIB2/SiC5";
     "species" := JArr [JStr "Si"; JStr "C"] ]}.

Definition entry_short : gmap string Json :=
  {[ "aurl" := JStr "aflowlib.duke.edu:AFLOWDATA/LIB2/short" ]}.

Definition entry_no_aurl : gmap string Json :=
  {[ "species" := JArr [JStr "Si"; JStr "C"] ]}.

(** Four entries at the references 0 to 3. *)
Definition objects (ref : nat) : gmap string Json :=
  match ref with
  | 0%nat => entry_SiC
  | 1%nat => entry_SiC5
  | 2%nat => entry_short
  | _ => entry_no_aurl
  end.

Definition world : World := {| heap := objects; gets := []; stdout := [] |}.

Definition repr (v : Json) : string := "...".

End Sample.

(** ** The session ([__init__], [_create_session])

    A [requests.Session] is modelled by its table of adapters: a fresh
    session has a default adapter under each of its two prefixes, and
    [mount] stores an adapter under a prefix.  The order in which the
    session later tries the prefixes is left out. *)

Module AflowSession.

(** The arguments [_create_session] gives to [urllib3.Retry]. *)
Record Retry : Type := {
  total : Z;
  read : Z;
  connect : Z;
  respect_retry_after_header : bool;
  status_forcelist : list Z
}.

(** [HTTPAdapter()] and [HTTPAdapter(max_retries=retry)]. *)
Inductive Adapter : Type :=
  | DefaultAdapter
  | RetryAdapter (retry : Retry).

Record Session : Type := { adapters : gmap string Adapter }.

(** [requests.Session()] *)
Definition new_session : Session :=
  {| adapters := {[ "https://" := DefaultAdapter; "http://" := DefaultAdapter ]} |}.

(** [session.mount(prefix, adapter)] *)
Definition mount (prefix : string) (adapter : Adapter) (session : Session) : Session :=
  {| adapters := <[prefix := adapter]> (adapters session) |}.

Section Class.

Variable PROTOCOLS : list string.
Variable STATUS_FORCELIST : list Z.

Definition _create_session (max_retries : option Z) : Session :=
  let session := new_session in
  match max_retries with
  | Some n =>
      let retry :=
        {| total := n; read := n; connect := n;
           respect_retry_after_header := true;
           status_forcelist := STATUS_FORCELIST |} in
      let adapter := RetryAdapter retry in
      fold_left (fun session protocol => mount protocol adapter session)
        PROTOCOLS session
  | None => session
  end.

End Class.
End AflowSession.

(** ** Two readings of the removal of the keywords

    Stated on strings alone, without the loop of [_is_query_valid]. *)

Module Spec.

(** Removal as the specification words it: keywords are removed
    wherever they occur, again and again; a string is [Erasable] when
    nothing is left of it in the end. *)
Inductive Erasable (keys : list string) : string -> Prop :=
  | erasable_empty : Erasable keys EmptyString
  | erasable_remove (u key v : string) :
      In key keys -> Erasable keys (u +:+ v) -> Erasable keys (u +:+ key +:+ v).

(** [DeletesLeftmost key s t]: [t] is [s] read once from left to right,
    with every occurrence of [key] that starts where the reading stands
    left out and the reading resumed behind it.  An empty key leaves
    the string as it is. *)
Inductive DeletesLeftmost : string -> string -> string -> Prop :=
  | deletes_empty_key (s : string) : DeletesLeftmost EmptyString s s
  | deletes_end (key : string) :
      key <> EmptyString -> DeletesLeftmost key EmptyString EmptyString
  | deletes_occurrence (key r t : string) :
      key <> EmptyString ->
      DeletesLeftmost key r t -> DeletesLeftmost key (key +:+ r) t
  | deletes_keep (key : string) (a : ascii) (r t : string) :
      key <> EmptyString ->
      (forall r', String a r <> key +:+ r') ->
      DeletesLeftmost key r t ->
      DeletesLeftmost key (String a r) (String a t).

(** One pass over the keywords, in their order, each keyword once. *)
Inductive SinglePass : list string -> string -> string -> Prop :=
  | pass_done (s : string) : SinglePass [] s s
  | pass_keyword (key : string) (keys : list string) (s s' t : string) :
      DeletesLeftmost key s s' -> SinglePass keys s' t ->
      SinglePass (key :: keys) s t.

End Spec.

(** ** Frames of a computation *)

(** The world after one more GET. *)
Definition logged (url : string) (w : World) : World :=
  {| heap := heap w; gets := gets w ++ [url]; stdout := stdout w |}.

(** A computation that ends in the world it started in. *)
Definition keeps_world {A} (m : M A) : Prop :=
  forall w, snd (m w) = w.

(** [s.replace(":", "/")], character by character. *)
Definition colons_to_slashes (s : string) : string :=
  string_of_list_ascii
    (map (fun c => if Ascii.eqb c ":" then "/"%char else c) (list_ascii_of_string s)).

(** ** More sample data: servers that fail, odd entries *)

Module Cases.

(** No response at all. *)
Definition network_down (url : string) : GetResult := Failed "Connection refused".

(** Every URL answers 404. *)
Definition network_error (url : string) : GetResult := Sample.not_found url.

(** Every URL answers the structure file without the species line. *)
Definition network_vasp4 (url : string) : GetResult :=
  Sample.ok Sample.contcar_vasp4 None.

(** Every URL answers a blank body. *)
Definition network_blank (url : string) : GetResult :=
  Sample.ok (String " " (String Py.LF (String Py.TAB EmptyString))) None.

Definition entry_aurl_list : gmap string Json :=
  {[ "aurl" := JArr [JStr "aflowlib.duke.edu"; JStr "AFLOWDATA/LIB2/SiC"] ]}.

Definition entry_no_species : gmap string Json :=
  {[ "aurl" := JStr "aflowlib.duke.edu:AFLOWDATA/LIB2/SiC" ]}.

(** A world with one and the same entry behind every reference. *)
Definition world_of (entry : gmap string Json) : World :=
  {| heap := fun _ => entry; gets := []; stdout := [] |}.

End Cases.

(** ** Runs of the model *)

Example isspace_ex : map Py.isspace [" "; "a"; Py.LF; Py.TAB]%char = [true; false; true; true].
Proof. reflexivity. Qed.
Example replace_ex1 : Py.replace "aa" "" "aaabaa" = "ab".
Proof. reflexivity. Qed.
Example replace_ex2 : Py.replace "" "-" "abc" = "-a-b-c-".
Proof. reflexivity. Qed.
Example replace_ex3 : Py.replace ":" "/" "a.org:X/Y:Z" = "a.org/X/Y/Z".
Proof. reflexivity. Qed.
Example split_ex : Py.split ";" "1.0; 2.0;3.0" = ["1.0"; " 2.0"; "3.0"].
Proof. reflexivity. Qed.
Example split_ex2 : Py.split ";" "" = [""] /\ Py.split ";" ";" = [""; ""].
Proof. split; reflexivity. Qed.
Example strip_ex : Py.strip "  a b  " = "a b" /\ Py.strip "   " = "".
Proof. split; reflexivity. Qed.
Example str_ex : map Py.str_of_int [0; 5; 120; -7] = ["0"; "5"; "120"; "-7"].
Proof. reflexivity. Qed.
Example punct_ex : String.length Py.punctuation = 32%nat.
Proof. reflexivity. Qed.

Example valid_run :
  map (AflowAPI._is_query_valid Sample.KEYWORDS Sample.OPERATORS)
    [""; "species(Si) and whatever"; "species, Egap(*)"; "species,Egap(*)";
     "nspecies(2) ,species"; "species(Si), Egap(*)"; "species; Egap"; " "]
  = [false; false; true; false; true; false; false; true].
Proof. vm_compute. reflexivity. Qed.

Example request_run :
  AflowAPI.request Sample.SERVER Sample.API Sample.DEFAULT_PAGING
    Sample.KEYWORDS Sample.OPERATORS Sample.network
    "species, Egap(*)" (Some 2) (Some 64) false Sample.world
  = (inr (JArr []),
     {| heap := Sample.objects;
        gets := ["https://aflow.org/API/aflux/?species, Egap(*)$paging(2,64)format(json)"];
        stdout := [] |}).
Proof. vm_compute. reflexivity. Qed.

(** With a default page of 1, the page 0 of the caller is lost. *)
Example paging_zero_run :
  gets (snd (AflowAPI.request Sample.SERVER Sample.API 1
               Sample.KEYWORDS Sample.OPERATORS Sample.network
               "species, Egap(*)" (Some 0) None false Sample.world))
  = ["https://aflow.org/API/aflux/?species, Egap(*)$paging(1)format(json)"].
Proof. vm_compute. reflexivity. Qed.

Example help_run :
  AflowAPI.help Sample.SERVER Sample.API Sample.DEFAULT_PAGING
    Sample.KEYWORDS Sample.OPERATORS Sample.network Sample.repr
    (Some "species Egap") Sample.world
  = (inl (AttributeError "aflux_request"), Sample.world).
Proof. vm_compute. reflexivity. Qed.

(** The same body calling [request]: the download fails and the
    message is printed. *)
Example help_via_request_run :
  AflowAPI.help_via Sample.SERVER Sample.API Sample.DEFAULT_PAGING
    Sample.KEYWORDS Sample.OPERATORS Sample.network Sample.repr
    "request" (Some "species Egap") Sample.world
  = (inr tt,
     {| heap := Sample.objects;
        gets := ["https://aflow.org/API/aflux/?help(species Egap)"];
        stdout := ["No help information found for keyword: species Egap"] |}).
Proof. vm_compute. reflexivity. Qed.

Example contcar_vasp5_run :
  fst (AflowAPI.get_contcar Sample.network 1 Sample.world)
  = inr Sample.contcar_vasp5.
Proof. vm_compute. reflexivity. Qed.

(** ** Facts about the [str] model *)

Lemma split_nonempty sep s : Py.split sep s <> [].
Proof.
  destruct s as [|c s]; simpl; [discriminate|].
  destruct (Ascii.eqb c sep); [discriminate|].
  destruct (Py.split sep s); discriminate.
Qed.

Lemma join_cons2 sep p q r :
  Py.join sep (p :: q :: r) = p +:+ sep +:+ Py.join sep (q :: r).
Proof. reflexivity. Qed.

(** Joining the pieces of a split with the separator gives the string back. *)
Lemma join_split sep s : Py.join (String sep "") (Py.split sep s) = s.
Proof.
  induction s as [|c s IH]; simpl; [reflexivity|].
  destruct (Ascii.eqb_spec c sep) as [->|Hne].
  - destruct (Py.split sep s) as [|w ws] eqn:E.
    + now apply split_nonempty in E.
    + rewrite join_cons2, IH. reflexivity.
  - destruct (Py.split sep s) as [|w ws] eqn:E.
    + now apply split_nonempty in E.
    + destruct ws as [|w' ws]; [simpl in *; now rewrite IH|].
      rewrite join_cons2 in *. rewrite <- IH. reflexivity.
Qed.

Lemma char_in_cons c a s :
  Py.char_in c (String a s) = Ascii.eqb c a || Py.char_in c s.
Proof. reflexivity. Qed.

Lemma char_in_app c (s t : string) :
  Py.char_in c (s +:+ t) = Py.char_in c s || Py.char_in c t.
Proof.
  induction s as [|a s IH]; [reflexivity|].
  simpl String.append. now rewrite !char_in_cons, IH, orb_assoc.
Qed.

(** A piece without the separator, followed by the separator, is the
    first piece of the split. *)
Lemma split_app_sep sep p rest :
  Py.char_in sep p = false ->
  Py.split sep (p +:+ String sep rest) = p :: Py.split sep rest.
Proof.
  induction p as [|a p IH]; intros Hp; simpl.
  - now rewrite Ascii.eqb_refl.
  - rewrite char_in_cons in Hp. apply orb_false_elim in Hp as [Ha Hp].
    rewrite Ascii.eqb_sym, Ha, (IH Hp). reflexivity.
Qed.

Lemma split_without_sep sep p : Py.char_in sep p = false -> Py.split sep p = [p].
Proof.
  induction p as [|a p IH]; intros Hp; simpl; [reflexivity|].
  rewrite char_in_cons in Hp. apply orb_false_elim in Hp as [Ha Hp].
  rewrite Ascii.eqb_sym, Ha, (IH Hp). reflexivity.
Qed.

(** Splitting a join gives the pieces back, when no piece holds the
    separator. *)
Lemma split_join sep l :
  l <> [] ->
  Forall (fun p => Py.char_in sep p = false) l ->
  Py.split sep (Py.join (String sep "") l) = l.
Proof.
  induction l as [|p l IH]; intros Hne HF; [contradiction|].
  inversion HF as [|? ? Hp HF']; subst.
  destruct l as [|q l]; [now apply split_without_sep|].
  rewrite join_cons2.
  change (String sep "" +:+ Py.join (String sep "") (q :: l))
    with (String sep (Py.join (String sep "") (q :: l))).
  rewrite (split_app_sep _ _ _ Hp), IH; [reflexivity|discriminate|assumption].
Qed.

(** No piece of a split holds the separator. *)
Lemma split_pieces sep s :
  Forall (fun p => Py.char_in sep p = false) (Py.split sep s).
Proof.
  induction s as [|a s IH]; simpl; [repeat constructor|].
  destruct (Ascii.eqb a sep) eqn:E; [now constructor|].
  destruct (Py.split sep s) as [|w ws]; [repeat constructor; simpl|].
  - rewrite char_in_cons, Ascii.eqb_sym, E. reflexivity.
  - inversion IH; subst. constructor; [|assumption].
    rewrite char_in_cons, Ascii.eqb_sym, E. assumption.
Qed.

Lemma char_in_join c sep l :
  Py.char_in c sep = false ->
  Forall (fun p => Py.char_in c p = false) l ->
  Py.char_in c (Py.join sep l) = false.
Proof.
  intros Hsep. induction l as [|p l IH]; intros HF; [reflexivity|].
  inversion HF as [|? ? Hp HF']; subst.
  destruct l as [|q l]; [exact Hp|].
  rewrite join_cons2, !char_in_app, Hp, Hsep, (IH HF'). reflexivity.
Qed.

(** The lines of a text patched at index 5: the lines of the text, with
    the new line put in, when the new line has no line feed in it. *)
Lemma patched_text_lines (body line : string) :
  Py.char_in Py.LF line = false ->
  Py.split Py.LF
    (Py.join (String Py.LF "") (Py.list_insert 5 line (Py.split Py.LF body)))
  = Py.list_insert 5 line (Py.split Py.LF body)
  /\ length (Py.list_insert 5 line (Py.split Py.LF body))
     = S (length (Py.split Py.LF body)).
Proof.
  intros Hline. unfold Py.list_insert. split.
  - apply split_join.
    + intros E. apply List.app_eq_nil in E as [_ E]. discriminate.
    + apply Forall_app. pose proof (split_pieces Py.LF body) as HF.
      rewrite <- (firstn_skipn 5 (Py.split Py.LF body)) in HF.
      apply Forall_app in HF as [H1 H2]. split; [exact H1|].
      constructor; assumption.
  - rewrite List.length_app. cbn [length].
    rewrite <- (firstn_skipn 5 (Py.split Py.LF body)) at 3.
    rewrite List.length_app. lia.
Qed.

Lemma in_string_app c (s t : string) :
  In c (list_ascii_of_string (s +:+ t)) <->
  In c (list_ascii_of_string s) \/ In c (list_ascii_of_string t).
Proof.
  induction s as [|a s IH]; simpl; [tauto|]. rewrite IH. tauto.
Qed.

(** Deleting the occurrences of a key leaves characters of the string. *)
Lemma replace_from_chars old k s c :
  In c (list_ascii_of_string (Py.replace_from old "" k s)) ->
  In c (list_ascii_of_string s).
Proof.
  revert k. induction s as [|a s IH]; intros k; [simpl; tauto|].
  cbn [Py.replace_from]. destruct k as [|k].
  - destruct (String.prefix old (String a s)).
    + intros H. right. eapply IH, H.
    + intros [H|H]; [now left|right; eapply IH, H].
  - intros H. right. eapply IH, H.
Qed.

Lemma replace_empty_id s : Py.replace_empty "" s = s.
Proof. induction s as [|a s IH]; simpl; [reflexivity|now rewrite IH]. Qed.

Lemma replace_chars old s c :
  In c (list_ascii_of_string (Py.replace old "" s)) ->
  In c (list_ascii_of_string s).
Proof.
  destruct old; simpl.
  - now rewrite replace_empty_id.
  - apply replace_from_chars.
Qed.

Lemma strip_keywords_chars keys s c :
  In c (list_ascii_of_string (AflowAPI.strip_keywords keys s)) ->
  In c (list_ascii_of_string s).
Proof.
  unfold AflowAPI.strip_keywords. revert s.
  induction keys as [|key keys IH]; intros s; simpl; [tauto|].
  intros H. apply IH in H.
  destruct (Py.contains key s); [now apply replace_chars in H|assumption].
Qed.

Lemma length_zero_empty (s : string) :
  Nat.eqb (String.length s) 0 = true <-> s = "".
Proof. destruct s; simpl; split; congruence. Qed.

(** The loop of [get_property] returns the list it was given. *)
Lemma property_loop_fst l : fst (AflowAPI.property_loop l) = l.
Proof.
  unfold AflowAPI.property_loop.
  generalize (@None (list string)). generalize l at 2 3 as keep.
  induction l as [|v l IH]; intros keep o; simpl; [reflexivity|].
  apply IH.
Qed.

Lemma strip_keywords_empty keys : AflowAPI.strip_keywords keys "" = "".
Proof.
  unfold AflowAPI.strip_keywords. induction keys as [|key keys IH]; [reflexivity|].
  cbn [fold_left]. destruct key; exact IH.
Qed.

Lemma string_app_assoc (a b c : string) : (a +:+ b) +:+ c = a +:+ b +:+ c.
Proof. induction a as [|x a IH]; simpl; [reflexivity|f_equal; exact IH]. Qed.

Lemma string_app_inv_head (p x y : string) : p +:+ x = p +:+ y -> x = y.
Proof.
  induction p as [|a p IH]; simpl; [trivial|].
  intros H. injection H as H. now apply IH.
Qed.

Lemma list_ascii_app (s t : string) :
  list_ascii_of_string (s +:+ t) = (list_ascii_of_string s ++ list_ascii_of_string t)%list.
Proof. induction s as [|a s IH]; simpl; [reflexivity|now rewrite IH]. Qed.

Lemma string_app_inv_tail (x y t : string) : x +:+ t = y +:+ t -> x = y.
Proof.
  intros H. apply (f_equal list_ascii_of_string) in H.
  rewrite !list_ascii_app in H. apply List.app_inv_tail in H.
  rewrite <- (string_of_list_ascii_of_string x), H.
  apply string_of_list_ascii_of_string.
Qed.

(** Distinct integers print differently. *)
Lemma str_of_int_inj (a b : Z) : Py.str_of_int a = Py.str_of_int b -> a = b.
Proof.
  unfold Py.str_of_int. intros H.
  assert (Hnn : forall z, Z.to_int z <> Decimal.Pos Decimal.Nil
                          /\ Z.to_int z <> Decimal.Neg Decimal.Nil).
  { intros [|q|q]; split; simpl; try discriminate;
      intros E; injection E as E; now apply DecimalPos.Unsigned.to_uint_nonnil in E. }
  apply DecimalZ.to_int_inj.
  assert (Some (Z.to_int a) = Some (Z.to_int b)) as E.
  { rewrite <- (NilZero.isi (Z.to_int a)) by apply Hnn.
    rewrite <- (NilZero.isi (Z.to_int b)) by apply Hnn.
    now rewrite H. }
  now injection E.
Qed.

(** ** The keyword loop against the two readings *)

Lemma prefix_app (key r : string) : String.prefix key (key +:+ r) = true.
Proof.
  induction key as [|a key IH]; simpl; [now destruct r|].
  destruct (ascii_dec a a); [exact IH|contradiction].
Qed.

Lemma prefix_split (key s : string) :
  String.prefix key s = true -> exists r, s = key +:+ r.
Proof.
  revert s. induction key as [|a key IH]; intros s H; [now exists s|].
  destruct s as [|b s]; [discriminate|]. simpl in H.
  destruct (ascii_dec a b) as [->|]; [|discriminate].
  destruct (IH s H) as [r ->]. now exists r.
Qed.

Lemma string_length_app (s t : string) :
  String.length (s +:+ t) = (String.length s + String.length t)%nat.
Proof. induction s as [|a s IH]; simpl; [reflexivity|now rewrite IH]. Qed.

(** Passing over a known stretch, the scan goes on behind it. *)
Lemma replace_from_skip (old new u r : string) :
  Py.replace_from old new (String.length u) (u +:+ r) = Py.replace_from old new 0 r.
Proof. induction u as [|a u IH]; [reflexivity|exact IH]. Qed.

Lemma replace_occurrence (key r : string) :
  key <> EmptyString ->
  Py.replace key "" (key +:+ r) = Py.replace key "" r.
Proof.
  intros Hkey. destruct key as [|a key]; [contradiction|].
  unfold Py.replace. change (String a key +:+ r) with (String a (key +:+ r)).
  cbn [Py.replace_from].
  change (String a (key +:+ r)) with (String a key +:+ r).
  rewrite prefix_app. cbn [String.length Nat.pred].
  now rewrite replace_from_skip.
Qed.

Lemma replace_keep (key : string) (a : ascii) (r : string) :
  key <> EmptyString ->
  String.prefix key (String a r) = false ->
  Py.replace key "" (String a r) = String a (Py.replace key "" r).
Proof.
  intros Hkey Hpre. destruct key as [|b key]; [contradiction|].
  unfold Py.replace. cbn [Py.replace_from]. now rewrite Hpre.
Qed.

(** Where the key does not occur, [replace] changes nothing: the test
    [key in query_keywords] of the loop is immaterial. *)
Lemma replace_absent (key s : string) :
  Py.contains key s = false -> Py.replace key "" s = s.
Proof.
  destruct key as [|b key].
  - intros _. apply replace_empty_id.
  - induction s as [|a s IH]; intros H; [reflexivity|].
    cbn [Py.contains] in H. apply orb_false_elim in H as [Hpre Hrest].
    rewrite replace_keep by (discriminate || exact Hpre).
    now rewrite IH.
Qed.

(** [str.replace(key, '')] is the reading from left to right. *)
Lemma deletes_leftmost_replace (key s t : string) :
  Spec.DeletesLeftmost key s t <-> t = Py.replace key "" s.
Proof.
  split.
  - induction 1 as [s|key Hkey|key r t Hkey _ IH|key a r t Hkey Hno _ IH].
    + symmetry. apply replace_empty_id.
    + destruct key; [contradiction|reflexivity].
    + now rewrite replace_occurrence.
    + rewrite replace_keep, IH; [reflexivity|exact Hkey|].
      apply not_true_iff_false. intros Hpre.
      destruct (prefix_split _ _ Hpre) as [r' Hr']. now apply (Hno r').
  - intros ->. destruct key as [|b key].
    + rewrite (replace_empty_id s : Py.replace "" "" s = s). constructor.
    + remember (String.length s) as n eqn:Hn.
      revert s Hn. induction n as [n IHn] using lt_wf_ind. intros s Hn.
      destruct s as [|a s]; [constructor; discriminate|].
      destruct (String.prefix (String b key) (String a s)) eqn:Hpre.
      * destruct (prefix_split _ _ Hpre) as [r Hr]. rewrite Hr.
        rewrite replace_occurrence by discriminate.
        apply Spec.deletes_occurrence; [discriminate|].
        apply (IHn (String.length r)); [|reflexivity].
        rewrite Hn, Hr. change (String b key +:+ r) with (String b (key +:+ r)).
        cbn [String.length]. rewrite string_length_app. lia.
      * rewrite replace_keep by (discriminate || exact Hpre).
        apply Spec.deletes_keep; [discriminate| |].
        -- intros r' Hr'. rewrite Hr', prefix_app in Hpre. discriminate.
        -- apply (IHn (String.length s)); [|reflexivity].
           rewrite Hn. cbn [String.length]. lia.
Qed.

(** The loop of [_is_query_valid] is the single pass. *)
Lemma single_pass_strip_keywords (keys : list string) (s t : string) :
  Spec.SinglePass keys s t <-> t = AflowAPI.strip_keywords keys s.
Proof.
  unfold AflowAPI.strip_keywords. revert s.
  induction keys as [|key keys IH]; intros s; cbn [fold_left].
  - split; [now inversion 1|intros ->; constructor].
  - replace (if Py.contains key s then Py.replace key "" s else s)
      with (Py.replace key "" s)
      by (destruct (Py.contains key s) eqn:E;
          [reflexivity|now apply replace_absent]).
    split.
    + inversion 1 as [|? ? ? s' ? Hdel Hpass]; subst.
      apply deletes_leftmost_replace in Hdel. subst s'. now apply IH.
    + intros Ht. apply Spec.pass_keyword with (s' := Py.replace key "" s).
      * now apply deletes_leftmost_replace.
      * now apply IH.
Qed.

(** What one reading deletes, repeated removal deletes too, in any
    context to the left. *)
Lemma deletes_leftmost_erasable (keys : list string) (key s t : string) :
  In key keys ->
  Spec.DeletesLeftmost key s t ->
  forall u, Spec.Erasable keys (u +:+ t) -> Spec.Erasable keys (u +:+ s).
Proof.
  intros Hin. induction 1 as [s|key Hkey|key r t Hkey _ IH|key a r t Hkey Hno _ IH];
    intros u Hu.
  - exact Hu.
  - exact Hu.
  - apply Spec.erasable_remove; [exact Hin|]. now apply IH.
  - replace (u +:+ String a r) with ((u +:+ String a "") +:+ r)
      by (now rewrite string_app_assoc).
    apply IH; [exact Hin|].
    now rewrite string_app_assoc.
Qed.

Lemma single_pass_erasable (keys : list string) (s : string) :
  Spec.SinglePass keys s "" -> Spec.Erasable keys s.
Proof.
  assert (Hgen : forall all keys' s t,
             (forall key, In key keys' -> In key all) ->
             Spec.SinglePass keys' s t ->
             Spec.Erasable all t -> Spec.Erasable all s).
  { intros all keys' s0 t Hsub Hpass. revert Hsub.
    induction Hpass as [s0|key keys' s0 s' t Hdel _ IH]; intros Hsub Ht;
      [exact Ht|].
    apply (deletes_leftmost_erasable all key s0 s') with (u := EmptyString).
    - apply Hsub. now left.
    - exact Hdel.
    - apply IH; [|exact Ht]. intros k Hk. apply Hsub. now right. }
  intros Hpass. apply (Hgen keys keys s ""); [auto|exact Hpass|constructor].
Qed.

(** ** The heap is read only *)

Lemma keeps_ret {A} (a : A) : keeps_heap (ret a).
Proof. intros w. reflexivity. Qed.

Lemma keeps_raise {A} (e : Exn) : keeps_heap (@raise A e).
Proof. intros w. reflexivity. Qed.

Lemma keeps_lift {A} (r : Exn + A) : keeps_heap (lift r).
Proof. intros w. reflexivity. Qed.

Lemma keeps_print line : keeps_heap (print line).
Proof. intros w. reflexivity. Qed.

Lemma keeps_deref entry : keeps_heap (deref entry).
Proof. intros w. reflexivity. Qed.

Lemma keeps_bind {A B} (m : M A) (k : A -> M B) :
  keeps_heap m -> (forall a, keeps_heap (k a)) -> keeps_heap (bind m k).
Proof.
  intros Hm Hk w. unfold bind. specialize (Hm w).
  destruct (m w) as [[e|a] w1]; cbn [snd] in *; [exact Hm|].
  now rewrite Hk.
Qed.

Lemma keeps_except {A} (m h : M A) :
  keeps_heap m -> keeps_heap h -> keeps_heap (except_RuntimeError m h).
Proof.
  intros Hm Hh w. unfold except_RuntimeError. specialize (Hm w).
  destruct (m w) as [[e|a] w1]; cbn [snd] in *; [|exact Hm].
  destruct e; cbn [snd]; try exact Hm. now rewrite Hh.
Qed.

Lemma keeps_make_request session_get url :
  keeps_heap (AflowAPI._make_request session_get url).
Proof.
  intros w. unfold AflowAPI._make_request.
  destruct (session_get url) as [r|msg]; [|reflexivity].
  destruct (http_error r); reflexivity.
Qed.

Create HintDb keeps.

#[local] Hint Resolve keeps_ret keeps_raise keeps_lift keeps_print keeps_deref
  keeps_make_request : keeps.

Ltac keeps_step :=
  match goal with
  | |- keeps_heap (bind _ _) => apply keeps_bind; [|intros ?]
  | |- keeps_heap (except_RuntimeError _ _) => apply keeps_except
  | |- keeps_heap (if ?b then _ else _) => destruct b
  | |- keeps_heap (match ?x with _ => _ end) => destruct x
  | |- keeps_heap _ => solve [auto with keeps]
  end.

(** ** Properties of the client *)

Section Properties.

Variables SERVER API : string.
Variable DEFAULT_PAGING : Z.
Variable API_KEYWORDS : list string.
Variable API_OPERATORS : list string.
Variable session_get : string -> GetResult.
Variable repr : Json -> string.

Local Abbreviation is_query_valid :=
  (AflowAPI._is_query_valid API_KEYWORDS API_OPERATORS).
Local Abbreviation strip_keywords := (AflowAPI.strip_keywords API_KEYWORDS).
Local Abbreviation base_url := (AflowAPI.base_url SERVER API).
Local Abbreviation request :=
  (AflowAPI.request SERVER API DEFAULT_PAGING API_KEYWORDS API_OPERATORS session_get).
Local Abbreviation help :=
  (AflowAPI.help SERVER API DEFAULT_PAGING API_KEYWORDS API_OPERATORS session_get repr).
Local Abbreviation get_contcar := (AflowAPI.get_contcar session_get).
Local Abbreviation get_property := (AflowAPI.get_property session_get).

(** The alphabetic characters of a query, as [_is_query_valid] joins them. *)
Local Abbreviation alphabetic query :=
  (string_of_list_ascii (List.filter Py.isalpha (list_ascii_of_string query))).

(** What is left of the alphabetic characters holds alphabetic
    characters only. *)
Lemma strip_keywords_alpha query c :
  In c (list_ascii_of_string (strip_keywords (alphabetic query))) ->
  Py.isalpha c = true.
Proof.
  intros H. apply strip_keywords_chars in H.
  rewrite list_ascii_of_string_of_list_ascii in H.
  now apply filter_In in H.
Qed.

(** The three checks of [_is_query_valid], the third in terms of its
    own loop: nothing alphabetic is left behind by [strip_keywords]. *)
Lemma is_query_valid_three_checks :
  (forall query : string,
      is_query_valid query = true <->
      (exists c, In c (list_ascii_of_string query) /\ Py.isspace c = true)
      /\ (forall c, In c (list_ascii_of_string query) ->
                    Py.char_in c Py.punctuation = true ->
                    In (String c "") API_OPERATORS)
      /\ (forall c,
             In c (list_ascii_of_string
                     (strip_keywords (alphabetic query))) ->
             Py.isalpha c = false))
  /\ is_query_valid "" = false.
Proof.
  split; [|reflexivity].
  intros query. unfold AflowAPI._is_query_valid.
  rewrite !andb_true_iff, existsb_exists, forallb_forall, length_zero_empty.
  split.
  - intros [[Hsp Hop] Hkw]. repeat split.
    + exact Hsp.
    + intros c Hin Hp.
      specialize (Hop c). rewrite filter_In in Hop.
      specialize (Hop (conj Hin Hp)).
      apply existsb_exists in Hop. destruct Hop as [o [Ho Heq]].
      apply String.eqb_eq in Heq. now subst o.
    + rewrite Hkw. intros c [].
  - intros (Hsp & Hop & Hkw). repeat split.
    + exact Hsp.
    + intros c Hc. apply filter_In in Hc. destruct Hc as [Hin Hp].
      apply existsb_exists. exists (String c ""). split.
      * now apply Hop.
      * apply String.eqb_refl.
    + destruct (strip_keywords (alphabetic query)) as [|c rest] eqn:E;
        [reflexivity|].
      assert (Hc : In c (list_ascii_of_string
                   (strip_keywords (alphabetic query))))
        by (rewrite E; now left).
      pose proof (strip_keywords_alpha _ _ Hc) as Ha.
      rewrite (Hkw c (or_introl eq_refl)) in Ha. discriminate.
Qed.

(** C1, amended. [_is_query_valid query] is true exactly when the query
    has a whitespace character, each of its punctuation characters is
    one of the allowed operators, and one pass over the keywords, in
    their order, each keyword deleted once from left to right from what
    is left of the alphabetic characters, leaves nothing.  A valid
    query's alphabetic characters can then be removed keyword by
    keyword; the empty query is not valid. *)
Theorem is_query_valid_single_pass :
  (forall query : string,
      is_query_valid query = true <->
      (exists c, In c (list_ascii_of_string query) /\ Py.isspace c = true)
      /\ (forall c, In c (list_ascii_of_string query) ->
                    Py.char_in c Py.punctuation = true ->
                    In (String c "") API_OPERATORS)
      /\ Spec.SinglePass API_KEYWORDS (alphabetic query) "")
  /\ (forall query : string,
        is_query_valid query = true ->
        Spec.Erasable API_KEYWORDS (alphabetic query))
  /\ is_query_valid "" = false.
Proof.
  assert (Hiff : forall query : string,
      is_query_valid query = true <->
      (exists c, In c (list_ascii_of_string query) /\ Py.isspace c = true)
      /\ (forall c, In c (list_ascii_of_string query) ->
                    Py.char_in c Py.punctuation = true ->
                    In (String c "") API_OPERATORS)
      /\ Spec.SinglePass API_KEYWORDS (alphabetic query) "").
  { intros query.
    rewrite (proj1 is_query_valid_three_checks query).
    rewrite single_pass_strip_keywords.
    split; intros (Hsp & Hop & Hkw); repeat split; try assumption.
    - destruct (strip_keywords (alphabetic query)) as [|c rest] eqn:E;
        [reflexivity|].
      assert (Hc : In c (list_ascii_of_string
                           (strip_keywords (alphabetic query))))
        by (rewrite E; now left).
      pose proof (strip_keywords_alpha _ _ Hc) as Ha.
      rewrite (Hkw c (or_introl eq_refl)) in Ha. discriminate.
    - rewrite <- Hkw. intros c []. }
  split; [exact Hiff|]. split; [|reflexivity].
  intros query Hv. apply single_pass_erasable. now apply Hiff.
Qed.

(** C2. A chunk size below 1, a negative page or a matchbook that does
    not pass the validation makes [request] raise [ValueError]; the
    world is left as it was, so no GET is issued. *)
Theorem request_rejects_invalid_arguments
    (matchbook : string) (paging chunk_size : option Z) (no_directives : bool)
    (w : World) :
  (exists c, chunk_size = Some c /\ c < 1)
  \/ (exists p, paging = Some p /\ p < 0)
  \/ is_query_valid matchbook = false ->
  exists msg,
    request matchbook paging chunk_size no_directives w = (inl (ValueError msg), w)
    /\ gets (snd (request matchbook paging chunk_size no_directives w)) = gets w.
Proof.
  intros H. unfold AflowAPI.request.
  destruct chunk_size as [c|]; [destruct (Z.ltb_spec c 1) as [Hc|Hc]|];
    try (eexists; split; reflexivity);
    (destruct paging as [p|]; [destruct (Z.ltb_spec p 0) as [Hp|Hp]|];
     try (eexists; split; reflexivity));
    (destruct (is_query_valid matchbook) eqn:Hv;
     [exfalso|eexists; split; reflexivity]);
    destruct H as [(c' & E & Hc') | [(p' & E & Hp') | E]];
    try discriminate; try (injection E as <-; lia).
Qed.

(** Once the three checks pass, [request] issues one GET, to the URL
    it computed, whatever the answer is. *)
Lemma request_gets (matchbook : string) (paging chunk_size : option Z)
    (no_directives : bool) (w : World) :
  match chunk_size with Some c => 1 <= c | None => True end ->
  match paging with Some p => 0 <= p | None => True end ->
  is_query_valid matchbook = true ->
  gets (snd (request matchbook paging chunk_size no_directives w))
  = gets w ++ [AflowAPI.request_url SERVER API DEFAULT_PAGING
                 matchbook paging chunk_size no_directives].
Proof.
  intros Hc Hp Hv. unfold AflowAPI.request. rewrite Hv.
  replace (match chunk_size with Some c => c <? 1 | None => false end)
    with false by (destruct chunk_size; [symmetry; apply Z.ltb_ge; lia|reflexivity]).
  replace (match paging with Some p => p <? 0 | None => false end)
    with false by (destruct paging; [symmetry; apply Z.ltb_ge; lia|reflexivity]).
  cbn [negb]. unfold bind, AflowAPI._make_request.
  destruct (session_get _) as [r|msg]; [|reflexivity].
  destruct (http_error r); [reflexivity|].
  destruct (json r); reflexivity.
Qed.

Lemma request_url_plain (matchbook : string) :
  AflowAPI.request_url SERVER API DEFAULT_PAGING matchbook None None false
  = base_url +:+ matchbook +:+ "$paging("
      +:+ Py.str_of_int DEFAULT_PAGING +:+ ")format(json)".
Proof.
  unfold AflowAPI.request_url. cbn [py_or negb].
  now rewrite !string_app_assoc.
Qed.

(** C3. For a matchbook that passes the validation, the URL requested
    is the base URL and the matchbook, followed by
    [$paging(<default>)format(json)] when neither page nor chunk size
    is given, by [$paging(<default>,<chunk_size>)format(json)] when
    only the chunk size is given (so [,5)] for a chunk size of 5), and
    by nothing when [no_directives] is set. *)
Theorem request_url_suffix (matchbook : string) (w : World) :
  is_query_valid matchbook = true ->
  gets (snd (request matchbook None None false w))
  = gets w ++ [base_url +:+ matchbook +:+ "$paging("
                 +:+ Py.str_of_int DEFAULT_PAGING +:+ ")format(json)"]
  /\ (forall c : Z, 1 <= c ->
        gets (snd (request matchbook None (Some c) false w))
        = gets w ++ [base_url +:+ matchbook +:+ "$paging("
                       +:+ Py.str_of_int DEFAULT_PAGING +:+ ","
                       +:+ Py.str_of_int c +:+ ")format(json)"])
  /\ gets (snd (request matchbook None (Some 5) false w))
     = gets w ++ [base_url +:+ matchbook +:+ "$paging("
                    +:+ Py.str_of_int DEFAULT_PAGING +:+ ",5)format(json)"]
  /\ (forall paging chunk_size : option Z,
        match chunk_size with Some c => 1 <= c | None => True end ->
        match paging with Some p => 0 <= p | None => True end ->
        gets (snd (request matchbook paging chunk_size true w))
        = gets w ++ [base_url +:+ matchbook]).
Proof.
  intros Hv. repeat split.
  - rewrite request_gets by (cbn; trivial).
    now rewrite request_url_plain.
  - intros c Hc. rewrite request_gets by (cbn; trivial).
    unfold AflowAPI.request_url. cbn [py_or negb].
    now rewrite !string_app_assoc.
  - rewrite request_gets by (cbn; trivial; lia).
    unfold AflowAPI.request_url. cbn [py_or negb].
    now rewrite !string_app_assoc.
  - intros paging chunk_size Hc Hp. now rewrite request_gets.
Qed.

(** The blank query passes the validation under any constants. *)
Lemma blank_query_valid : is_query_valid " " = true.
Proof.
  unfold AflowAPI._is_query_valid. cbn. now rewrite strip_keywords_empty.
Qed.

(** A page other than 0 appears in the directive as given. *)
Lemma request_url_nonzero_paging (matchbook : string) (p : Z) :
  p <> 0 ->
  AflowAPI.request_url SERVER API DEFAULT_PAGING matchbook (Some p) None false
  = base_url +:+ matchbook +:+ "$paging(" +:+ Py.str_of_int p +:+ ")format(json)".
Proof.
  intros Hp. unfold AflowAPI.request_url, py_or.
  destruct (Z.eqb_spec p 0); [contradiction|].
  cbn [negb]. now rewrite !string_app_assoc.
Qed.

(** Line 117 takes a page of 0 for no page: the URL requested is then
    the URL of a call without page, with the default page in it.  It is
    the URL with [$paging(0)] if and only if the default page is 0. *)
Lemma request_paging_zero_takes_default (w : World) :
  gets (snd (request " " (Some 0) None false w))
  = gets w ++ [base_url +:+ " " +:+ "$paging("
                 +:+ Py.str_of_int DEFAULT_PAGING +:+ ")format(json)"]
  /\ gets (snd (request " " (Some 0) None false w))
     = gets (snd (request " " None None false w))
  /\ (DEFAULT_PAGING <> 0 ->
      gets (snd (request " " (Some 0) None false w))
      <> gets w ++ [base_url +:+ " " +:+ "$paging(0)format(json)"]).
Proof.
  assert (E : gets (snd (request " " (Some 0) None false w))
              = gets w ++ [base_url +:+ " " +:+ "$paging("
                             +:+ Py.str_of_int DEFAULT_PAGING +:+ ")format(json)"]).
  { rewrite request_gets by (cbn; trivial; try lia; apply blank_query_valid).
    unfold AflowAPI.request_url. cbn [py_or Z.eqb negb].
    now rewrite !string_app_assoc. }
  split; [exact E|]. split.
  - rewrite E, request_gets by (cbn; trivial; apply blank_query_valid).
    now rewrite request_url_plain.
  - intros Hd. rewrite E. intros H.
    apply List.app_inv_head in H. injection H as H.
    apply string_app_inv_head in H. simpl in H.
    repeat (injection H as H).
    change ("0)format(json)") with ("0" +:+ ")format(json)") in H.
    apply string_app_inv_tail in H.
    apply (str_of_int_inj DEFAULT_PAGING 0) in H. contradiction.
Qed.



(** With the method name that exists, [help] does recover from a
    failed download: it prints the message and returns. *)
Lemma help_via_request_recovers (keyword msg : string) (w w' : World) :
  is_query_valid keyword = true ->
  request ("help(" +:+ keyword +:+ ")") None None true w
  = (inl (RuntimeError msg), w') ->
  AflowAPI.help_via SERVER API DEFAULT_PAGING API_KEYWORDS API_OPERATORS
    session_get repr "request" (Some keyword) w
  = (inr tt,
     {| heap := heap w'; gets := gets w';
        stdout := stdout w'
                  ++ ["No help information found for keyword: " +:+ keyword] |}).
Proof.
  intros Hv Hr. unfold AflowAPI.help_via. rewrite Hv. cbn [negb].
  unfold bind at 1. unfold except_RuntimeError, bind at 1.
  unfold AflowAPI.call_method. cbn [String.eqb Ascii.eqb Bool.eqb].
  rewrite Hr. reflexivity.
Qed.

(** C5. [help] with a keyword that passes the validation ends in
    [AttributeError]: the object has no method [aflux_request].  Nothing
    is printed and nothing is requested.  A keyword that does not pass
    raises [ValueError]. *)
Theorem help_keyword_attribute_error (keyword : string) (w : World) :
  (is_query_valid keyword = true ->
   help (Some keyword) w = (inl (AttributeError "aflux_request"), w))
  /\ (is_query_valid keyword = false ->
      help (Some keyword) w
      = (inl (ValueError "Invalid query: contains invalid keywords"), w)).
Proof.
  unfold AflowAPI.help, AflowAPI.help_via.
  split; intros Hv; rewrite Hv; reflexivity.
Qed.

(** The two per-entry helpers start alike: with a string under
    ["aurl"] they issue one GET and go on with the response. *)
Lemma fetch_entry_resource (entry : nat) (w : World) (a suffix : string)
    (r : Response) :
  session_get ("http://" +:+ Py.replace ":" "/" a +:+ suffix) = Responded r ->
  http_error r = None ->
  AflowAPI._make_request session_get
    ("http://" +:+ Py.replace ":" "/" a +:+ suffix) w
  = (inr r, {| heap := heap w;
               gets := gets w
                       ++ ["http://" +:+ Py.replace ":" "/" a +:+ suffix];
               stdout := stdout w |}).
Proof.
  intros Hget Hok. unfold AflowAPI._make_request. now rewrite Hget, Hok.
Qed.

(** C6, amended. For an entry whose ["aurl"] is a string and a fetched
    text that has a line at index 5 which is not blank: when the
    stripped line starts with a numeric character, the result is the
    text with the names of [entry["species"]], joined by spaces, put
    in as a line at index 5; otherwise the result is the text. *)
Theorem get_contcar_species_line (entry : nat) (w : World) (a : string)
    (r : Response) (line5 : string) (c : ascii) (rest : string) :
  heap w entry !! "aurl" = Some (JStr a) ->
  session_get ("http://" +:+ Py.replace ":" "/" a +:+ "/CONTCAR.relax")
  = Responded r ->
  http_error r = None ->
  nth_error (Py.split Py.LF (text r)) 5 = Some line5 ->
  Py.strip line5 = String c rest ->
  (Py.isnumeric c = true ->
   forall (species : Json) (names : list string),
     heap w entry !! "species" = Some species ->
     iter_strs species = inr names ->
     fst (get_contcar entry w)
     = inr (Py.join (String Py.LF "")
              (firstn 5 (Py.split Py.LF (text r))
               ++ Py.join " " names :: skipn 5 (Py.split Py.LF (text r)))))
  /\ (Py.isnumeric c = false -> fst (get_contcar entry w) = inr (text r)).
Proof.
  intros Haurl Hget Hok H5 Hstrip.
  unfold AflowAPI.get_contcar, bind, deref, lift, has_key, dict_getitem.
  rewrite Haurl. cbn [negb str_replace].
  rewrite (fetch_entry_resource entry w a "/CONTCAR.relax" r Hget Hok).
  unfold list_getitem. rewrite H5, Hstrip. cbn [str_first].
  split; intros Hnum; rewrite Hnum.
  - intros species names Hsp Hnames. cbn [heap]. rewrite Hsp, Hnames.
    reflexivity.
  - cbn. now rewrite join_split.
Qed.

(** C7. With a string under ["aurl"] and a successful download,
    [get_property] returns the stripped text split at every [;], each
    piece as it is; the text [1.0; 2.0;3.0] gives the three pieces
    [1.0], [ 2.0] and [3.0]. *)
Theorem get_property_semicolon_split (entry : nat) (property : string)
    (w : World) (a : string) (r : Response) :
  heap w entry !! "aurl" = Some (JStr a) ->
  session_get ("http://" +:+ Py.replace ":" "/" a +:+ "/?" +:+ property)
  = Responded r ->
  http_error r = None ->
  fst (get_property entry property w)
  = inr (Py.split ";" (Py.strip (text r)))
  /\ (text r = "1.0; 2.0;3.0" ->
      fst (get_property entry property w) = inr ["1.0"; " 2.0"; "3.0"]).
Proof.
  intros Haurl Hget Hok.
  assert (E : fst (get_property entry property w)
              = inr (Py.split ";" (Py.strip (text r)))).
  { unfold AflowAPI.get_property, bind, deref, lift, has_key, dict_getitem.
    rewrite Haurl. cbn [negb str_replace].
    rewrite (fetch_entry_resource entry w a ("/?" +:+ property) r Hget Hok).
    cbn [fst ret]. now rewrite property_loop_fst. }
  split; [exact E|]. intros Htext. rewrite E, Htext. reflexivity.
Qed.

(** C8. Without the key ["aurl"], [get_contcar] and [get_property]
    raise [ValueError] and leave the world as it was: no GET. *)
Theorem entry_without_aurl_rejected (entry : nat) (property : string)
    (w : World) :
  heap w entry !! "aurl" = None ->
  get_contcar entry w
  = (inl (ValueError "Invalid entry: missing 'aurl' key."), w)
  /\ get_property entry property w
     = (inl (ValueError "Invalid entry: missing 'aurl' key."), w)
  /\ gets (snd (get_contcar entry w)) = gets w
  /\ gets (snd (get_property entry property w)) = gets w.
Proof.
  intros Haurl.
  unfold AflowAPI.get_contcar, AflowAPI.get_property, bind, deref, has_key.
  rewrite Haurl. repeat split.
Qed.

(** C10. [get_contcar] is partial: for a fetched text of fewer than
    six lines, or with a blank line at index 5, it ends in
    [IndexError], which is neither [ValueError] nor [RuntimeError]. *)
Theorem get_contcar_index_error (entry : nat) (w : World) (a : string)
    (r : Response) :
  heap w entry !! "aurl" = Some (JStr a) ->
  session_get ("http://" +:+ Py.replace ":" "/" a +:+ "/CONTCAR.relax")
  = Responded r ->
  http_error r = None ->
  (length (Py.split Py.LF (text r)) < 6)%nat
  \/ (exists line5, nth_error (Py.split Py.LF (text r)) 5 = Some line5
                    /\ Py.strip line5 = "") ->
  fst (get_contcar entry w) = inl IndexError
  /\ (forall msg, IndexError <> ValueError msg /\ IndexError <> RuntimeError msg).
Proof.
  intros Haurl Hget Hok Hshort.
  split; [|intros msg; split; discriminate].
  unfold AflowAPI.get_contcar, bind, deref, lift, has_key, dict_getitem.
  rewrite Haurl. cbn [negb str_replace].
  rewrite (fetch_entry_resource entry w a "/CONTCAR.relax" r Hget Hok).
  unfold list_getitem.
  destruct Hshort as [Hlen|(line5 & H5 & Hblank)].
  - assert (Hnone : nth_error (Py.split Py.LF (text r)) 5 = None)
      by (apply nth_error_None; lia).
    now rewrite Hnone.
  - rewrite H5, Hblank. reflexivity.
Qed.

Lemma keeps_request matchbook paging chunk_size no_directives :
  keeps_heap (request matchbook paging chunk_size no_directives).
Proof. unfold AflowAPI.request. repeat keeps_step. Qed.

Lemma keeps_call_method name matchbook no_directives :
  keeps_heap
    (AflowAPI.call_method SERVER API DEFAULT_PAGING API_KEYWORDS API_OPERATORS
       session_get name matchbook no_directives).
Proof.
  unfold AflowAPI.call_method.
  destruct (String.eqb name "request"); [apply keeps_request|].
  repeat keeps_step.
Qed.

Lemma keeps_help keyword : keeps_heap (help keyword).
Proof.
  unfold AflowAPI.help, AflowAPI.help_via.
  pose proof keeps_call_method as Hcall.
  repeat first [apply Hcall | keeps_step].
Qed.

Lemma keeps_get_contcar entry : keeps_heap (get_contcar entry).
Proof. unfold AflowAPI.get_contcar. repeat keeps_step. Qed.

Lemma keeps_get_property entry property :
  keeps_heap (get_property entry property).
Proof. unfold AflowAPI.get_property. repeat keeps_step. Qed.

(** C9. No operation of the client changes an entry: after
    [get_contcar], [get_property], [request] and [help], on every
    path, each object of the heap is the one it was before. *)
Theorem client_never_mutates_entries (w : World) :
  (forall entry, heap (snd (get_contcar entry w)) = heap w)
  /\ (forall entry property, heap (snd (get_property entry property w)) = heap w)
  /\ (forall matchbook paging chunk_size no_directives,
        heap (snd (request matchbook paging chunk_size no_directives w)) = heap w)
  /\ (forall keyword, heap (snd (help keyword w)) = heap w).
Proof.
  repeat split; intros.
  - apply keeps_get_contcar.
  - apply keeps_get_property.
  - apply keeps_request.
  - apply keeps_help.
Qed.

End Properties.

(** ** The theorems at the sample data *)

Lemma request_rejects_invalid_arguments_witness :
  ((exists c, Some 0 = Some c /\ c < 1)
   \/ (exists p, @None Z = Some p /\ p < 0)
   \/ AflowAPI._is_query_valid Sample.KEYWORDS Sample.OPERATORS "species, Egap(*)"
      = false)
  /\ exists msg,
      AflowAPI.request Sample.SERVER Sample.API Sample.DEFAULT_PAGING
        Sample.KEYWORDS Sample.OPERATORS Sample.network
        "species, Egap(*)" None (Some 0) false Sample.world
      = (inl (ValueError msg), Sample.world)
      /\ gets (snd (AflowAPI.request Sample.SERVER Sample.API Sample.DEFAULT_PAGING
                      Sample.KEYWORDS Sample.OPERATORS Sample.network
                      "species, Egap(*)" None (Some 0) false Sample.world))
         = gets Sample.world.
Proof.
  assert (H : (exists c, Some 0 = Some c /\ c < 1)
              \/ (exists p, @None Z = Some p /\ p < 0)
              \/ AflowAPI._is_query_valid Sample.KEYWORDS Sample.OPERATORS
                   "species, Egap(*)" = false).
  { left. exists 0. split; [reflexivity|lia]. }
  split; [exact H|].
  exact (request_rejects_invalid_arguments Sample.SERVER Sample.API
           Sample.DEFAULT_PAGING Sample.KEYWORDS Sample.OPERATORS Sample.network
           "species, Egap(*)" None (Some 0) false Sample.world H).
Defined.

Lemma request_url_suffix_witness :
  AflowAPI._is_query_valid Sample.KEYWORDS Sample.OPERATORS "species, Egap(*)" = true
  /\ gets (snd (AflowAPI.request Sample.SERVER Sample.API Sample.DEFAULT_PAGING
                  Sample.KEYWORDS Sample.OPERATORS Sample.network
                  "species, Egap(*)" None (Some 5) false Sample.world))
     = ["https://aflow.org/API/aflux/?species, Egap(*)$paging(0,5)format(json)"].
Proof.
  assert (Hv : AflowAPI._is_query_valid Sample.KEYWORDS Sample.OPERATORS
                 "species, Egap(*)" = true) by (vm_compute; reflexivity).
  split; [exact Hv|].
  exact (proj1 (proj2 (proj2
           (request_url_suffix Sample.SERVER Sample.API Sample.DEFAULT_PAGING
              Sample.KEYWORDS Sample.OPERATORS Sample.network
              "species, Egap(*)" Sample.world Hv)))).
Defined.

Lemma get_contcar_species_line_witness :
  Py.isnumeric "1" = true
  /\ fst (AflowAPI.get_contcar Sample.network 0 Sample.world)
     = inr Sample.contcar_vasp5.
Proof.
  split; [reflexivity|].
  exact (proj1
           (get_contcar_species_line Sample.network 0 Sample.world
              "aflowlib.duke.edu:AFLOWDATA/LIB2/SiC"
              {| http_error := None; text := Sample.contcar_vasp4; json := JSONDecodeError |}
              "  1 1" "1" " 1"
              eq_refl eq_refl eq_refl eq_refl eq_refl)
           eq_refl (JArr [JStr "Si"; JStr "C"]) ["Si"; "C"] eq_refl eq_refl).
Defined.

Lemma get_property_semicolon_split_witness :
  fst (AflowAPI.get_property Sample.network 0 "Egap" Sample.world)
  = inr ["1.0"; " 2.0"; "3.0"].
Proof.
  exact (proj2
           (get_property_semicolon_split Sample.network 0 "Egap" Sample.world
              "aflowlib.duke.edu:AFLOWDATA/LIB2/SiC"
              {| http_error := None; text := "1.0; 2.0;3.0"; json := JSONDecodeError |}
              eq_refl eq_refl eq_refl)
           eq_refl).
Defined.

Lemma entry_without_aurl_rejected_witness :
  Sample.objects 3 !! "aurl" = None
  /\ AflowAPI.get_contcar Sample.network 3 Sample.world
     = (inl (ValueError "Invalid entry: missing 'aurl' key."), Sample.world)
  /\ AflowAPI.get_property Sample.network 3 "Egap" Sample.world
     = (inl (ValueError "Invalid entry: missing 'aurl' key."), Sample.world).
Proof.
  split; [reflexivity|].
  pose proof (entry_without_aurl_rejected Sample.network 3 "Egap" Sample.world
                eq_refl) as (H1 & H2 & _).
  split; [exact H1|exact H2].
Defined.

Lemma get_contcar_index_error_witness :
  (length (Py.split Py.LF "SiC") < 6)%nat
  /\ fst (AflowAPI.get_contcar Sample.network 2 Sample.world) = inl IndexError.
Proof.
  assert (Hlen : (length (Py.split Py.LF "SiC") < 6)%nat) by (simpl; lia).
  split; [exact Hlen|].
  exact (proj1
           (get_contcar_index_error Sample.network 2 Sample.world
              "aflowlib.duke.edu:AFLOWDATA/LIB2/short"
              {| http_error := None; text := "SiC"; json := JSONDecodeError |}
              eq_refl eq_refl eq_refl (or_introl Hlen))).
Defined.

(** C6 as first stated fails: this entry has the key ["aurl"], the
    fetched text has no line at index 5, hence none that starts with a
    numeric character, and the result is not the text but [IndexError]. *)
Lemma get_contcar_short_text_counterexample :
  Sample.objects 2 !! "aurl" = Some (JStr "aflowlib.duke.edu:AFLOWDATA/LIB2/short")
  /\ Sample.network "http://aflowlib.duke.edu/AFLOWDATA/LIB2/short/CONTCAR.relax"
     = Sample.ok "SiC" None
  /\ nth_error (Py.split Py.LF "SiC") 5 = None
  /\ fst (AflowAPI.get_contcar Sample.network 2 Sample.world) = inl IndexError
  /\ fst (AflowAPI.get_contcar Sample.network 2 Sample.world) <> inr "SiC".
Proof.
  repeat split; try reflexivity. vm_compute. discriminate.
Qed.

(** C1 as first stated fails.  With the one keyword [species], the
    query [spespeciescies ] has a whitespace character and no
    punctuation, and its letters go away when the keyword is removed
    wherever it occurs, first from the middle and then what remains;
    [_is_query_valid] removes the keyword once, keeps [species], and
    answers false. *)
Lemma is_query_valid_one_pass_counterexample :
  (exists c, In c (list_ascii_of_string "spespeciescies ")
             /\ Py.isspace c = true)
  /\ (forall c, In c (list_ascii_of_string "spespeciescies ") ->
                Py.char_in c Py.punctuation = true -> In (String c "") [])
  /\ Spec.Erasable ["species"]
       (string_of_list_ascii
          (List.filter Py.isalpha (list_ascii_of_string "spespeciescies ")))
  /\ AflowAPI.strip_keywords ["species"] "spespeciescies" = "species"
  /\ AflowAPI._is_query_valid ["species"] [] "spespeciescies " = false.
Proof.
  split; [exists " "%char; split; [simpl; tauto|reflexivity]|].
  split.
  { intros c Hin Hp. exfalso. simpl in Hin.
    repeat (destruct Hin as [<-|Hin]; [discriminate Hp|]). exact Hin. }
  split; [|split; reflexivity].
  change (Spec.Erasable ["species"] ("spe" +:+ "species" +:+ "cies")).
  apply Spec.erasable_remove; [now left|].
  change (Spec.Erasable ["species"] ("" +:+ "species" +:+ "")).
  apply Spec.erasable_remove; [now left|]. constructor.
Qed.

(** The verdict depends on the order of the keywords. *)
Example keyword_order_run :
  AflowAPI._is_query_valid ["nspecies"; "species"] [] "nspecies " = true
  /\ AflowAPI._is_query_valid ["species"; "nspecies"] [] "nspecies " = false.
Proof. split; reflexivity. Qed.


(** ** More on the request path *)

Lemma keeps_world_ret {A} (a : A) : keeps_world (ret a).
Proof. intros w. reflexivity. Qed.

Lemma keeps_world_raise {A} (e : Exn) : keeps_world (@raise A e).
Proof. intros w. reflexivity. Qed.

Lemma keeps_world_lift {A} (r : Exn + A) : keeps_world (lift r).
Proof. intros w. reflexivity. Qed.

Lemma keeps_world_deref entry : keeps_world (deref entry).
Proof. intros w. reflexivity. Qed.

Lemma keeps_world_bind {A B} (m : M A) (k : A -> M B) :
  keeps_world m -> (forall a, keeps_world (k a)) -> keeps_world (bind m k).
Proof.
  intros Hm Hk w. unfold bind. specialize (Hm w).
  destruct (m w) as [[e|a] w1]; cbn [snd] in *; [exact Hm|].
  rewrite Hk. exact Hm.
Qed.

Create HintDb world.

#[local] Hint Resolve keeps_world_ret keeps_world_raise keeps_world_lift
  keeps_world_deref : world.

Ltac world_step :=
  match goal with
  | |- keeps_world (bind _ _) => apply keeps_world_bind; [|intros ?]
  | |- keeps_world (if ?b then _ else _) => destruct b
  | |- keeps_world (match ?x with _ => _ end) => destruct x
  | |- keeps_world _ => solve [auto with world]
  end.

(** A download followed by steps that keep the world ends in the world
    with the one URL logged, whatever the server answers. *)
Lemma make_request_then {A} session_get url (k : Response -> M A) :
  (forall r, keeps_world (k r)) ->
  forall w, snd (bind (AflowAPI._make_request session_get url) k w) = logged url w.
Proof.
  intros Hk w. unfold bind, AflowAPI._make_request.
  destruct (session_get url) as [r|msg]; [|reflexivity].
  destruct (http_error r); [reflexivity|].
  now rewrite Hk.
Qed.

(** The three outcomes of a download. *)
Lemma make_request_cases session_get url w :
  match session_get url with
  | Failed msg =>
      AflowAPI._make_request session_get url w
      = (inl (RequestException msg), logged url w)
  | Responded r =>
      match http_error r with
      | Some e =>
          AflowAPI._make_request session_get url w
          = (inl (RuntimeError ("Failed to download AFLUX data."
                                  +:+ String Py.LF (String Py.TAB e))),
             logged url w)
      | None => AflowAPI._make_request session_get url w = (inr r, logged url w)
      end
  end.
Proof.
  unfold AflowAPI._make_request.
  destruct (session_get url) as [r|msg]; [|reflexivity].
  destruct (http_error r); reflexivity.
Qed.

Section RequestPath.

Variables SERVER API : string.
Variable DEFAULT_PAGING : Z.
Variable API_KEYWORDS : list string.
Variable API_OPERATORS : list string.
Variable session_get : string -> GetResult.
Variable repr : Json -> string.

Local Abbreviation is_query_valid :=
  (AflowAPI._is_query_valid API_KEYWORDS API_OPERATORS).
Local Abbreviation base_url := (AflowAPI.base_url SERVER API).
Local Abbreviation request_url :=
  (AflowAPI.request_url SERVER API DEFAULT_PAGING).
Local Abbreviation request :=
  (AflowAPI.request SERVER API DEFAULT_PAGING API_KEYWORDS API_OPERATORS session_get).
Local Abbreviation help :=
  (AflowAPI.help SERVER API DEFAULT_PAGING API_KEYWORDS API_OPERATORS session_get repr).

(** The arguments that pass the guards of [request]. *)
Local Abbreviation accepted matchbook paging chunk_size :=
  (match chunk_size with Some c => 1 <= c | None => True end
   /\ match paging with Some p => 0 <= p | None => True end
   /\ is_query_valid matchbook = true).

Lemma request_accepted matchbook paging chunk_size no_directives :
  accepted matchbook paging chunk_size ->
  request matchbook paging chunk_size no_directives
  = bind (AflowAPI._make_request session_get
            (request_url matchbook paging chunk_size no_directives))
      (fun response =>
         match json response with
         | Decoded json_response => ret json_response
         | JSONDecodeError =>
             raise (RuntimeError "Failed to decode AFLUX response as JSON")
         | DigitLimitExceeded msg => raise (ValueError msg)
         | RecursionError msg => raise (RuntimeError msg)
         end).
Proof.
  intros (Hc & Hp & Hv). unfold AflowAPI.request. rewrite Hv.
  replace (match chunk_size with Some c => c <? 1 | None => false end)
    with false by (destruct chunk_size; [symmetry; apply Z.ltb_ge; lia|reflexivity]).
  replace (match paging with Some p => p <? 0 | None => false end)
    with false by (destruct paging; [symmetry; apply Z.ltb_ge; lia|reflexivity]).
  reflexivity.
Qed.

(** X1. Once its arguments are accepted, [request] issues its one GET
    and ends according to the answer: with the exception of the
    transport when no response came; with [RuntimeError] carrying the
    text of the HTTP error after [Failed to download AFLUX data.]; with
    [RuntimeError] [Failed to decode AFLUX response as JSON] when the
    body is not JSON; with the exception of the decoder itself, which
    is not caught, when the body is JSON that the decoder gives up on
    (an integer beyond the digit limit, [ValueError]; a nesting too
    deep, [RecursionError]); with the decoded value otherwise. *)
Theorem request_outcomes (matchbook : string) (paging chunk_size : option Z)
    (no_directives : bool) (w : World) :
  accepted matchbook paging chunk_size ->
  let url := request_url matchbook paging chunk_size no_directives in
  (forall msg, session_get url = Failed msg ->
     request matchbook paging chunk_size no_directives w
     = (inl (RequestException msg), logged url w))
  /\ (forall r e, session_get url = Responded r -> http_error r = Some e ->
        request matchbook paging chunk_size no_directives w
        = (inl (RuntimeError ("Failed to download AFLUX data."
                                +:+ String Py.LF (String Py.TAB e))),
           logged url w))
  /\ (forall r, session_get url = Responded r -> http_error r = None ->
        json r = JSONDecodeError ->
        request matchbook paging chunk_size no_directives w
        = (inl (RuntimeError "Failed to decode AFLUX response as JSON"),
           logged url w))
  /\ (forall r msg, session_get url = Responded r -> http_error r = None ->
        json r = DigitLimitExceeded msg ->
        request matchbook paging chunk_size no_directives w
        = (inl (ValueError msg), logged url w))
  /\ (forall r msg, session_get url = Responded r -> http_error r = None ->
        json r = RecursionError msg ->
        request matchbook paging chunk_size no_directives w
        = (inl (RuntimeError msg), logged url w))
  /\ (forall r j, session_get url = Responded r -> http_error r = None ->
        json r = Decoded j ->
        request matchbook paging chunk_size no_directives w
        = (inr j, logged url w)).
Proof.
  intros Hacc url. rewrite (request_accepted _ _ _ no_directives Hacc).
  fold url. unfold bind.
  pose proof (make_request_cases session_get url w) as Hcases.
  repeat split.
  - intros msg Hget. rewrite Hget in Hcases. now rewrite Hcases.
  - intros r e Hget He. rewrite Hget, He in Hcases. now rewrite Hcases.
  - intros r Hget Hok Hj. rewrite Hget, Hok in Hcases. now rewrite Hcases, Hj.
  - intros r msg Hget Hok Hj. rewrite Hget, Hok in Hcases.
    now rewrite Hcases, Hj.
  - intros r msg Hget Hok Hj. rewrite Hget, Hok in Hcases.
    now rewrite Hcases, Hj.
  - intros r j Hget Hok Hj. rewrite Hget, Hok in Hcases. now rewrite Hcases, Hj.
Qed.

(** X2. Whatever its arguments and whatever the server answers, a
    failing [request] fails with [ValueError], [RuntimeError] or the
    exception of the transport, and with nothing else. *)
Theorem request_error_kinds (matchbook : string) (paging chunk_size : option Z)
    (no_directives : bool) (w : World) (e : Exn) :
  fst (request matchbook paging chunk_size no_directives w) = inl e ->
  (exists msg, e = ValueError msg)
  \/ (exists msg, e = RuntimeError msg)
  \/ (exists msg, e = RequestException msg).
Proof.
  unfold AflowAPI.request.
  destruct (match chunk_size with Some c => c <? 1 | None => false end);
    [intros [= <-]; eauto|].
  destruct (match paging with Some p => p <? 0 | None => false end);
    [intros [= <-]; eauto|].
  destruct (negb (is_query_valid matchbook)); [intros [= <-]; eauto|].
  unfold bind, AflowAPI._make_request.
  destruct (session_get _) as [r|msg]; [|intros [= <-]; eauto].
  destruct (http_error r); [intros [= <-]; eauto|].
  destruct (json r); [discriminate|intros [= <-]; eauto..].
Qed.

(** A query without whitespace fails the first check. *)
Lemma no_space_invalid (query : string) :
  (forall c, In c (list_ascii_of_string query) -> Py.isspace c = false) ->
  is_query_valid query = false.
Proof.
  intros Hns. unfold AflowAPI._is_query_valid.
  replace (existsb Py.isspace (list_ascii_of_string query)) with false;
    [reflexivity|].
  symmetry. apply not_true_iff_false. intros H.
  apply existsb_exists in H as (c & Hin & Hc).
  rewrite (Hns c Hin) in Hc. discriminate.
Qed.

(** X3. A matchbook with no whitespace character in it, the empty
    matchbook among them, is refused by [request] with [ValueError],
    for any page, chunk size and directive flag; no GET is issued. *)
Theorem request_refuses_matchbook_without_space (matchbook : string)
    (paging chunk_size : option Z) (no_directives : bool) (w : World) :
  ((forall c, In c (list_ascii_of_string matchbook) -> Py.isspace c = false) ->
   exists msg,
     request matchbook paging chunk_size no_directives w
     = (inl (ValueError msg), w))
  /\ exists msg,
       request "" paging chunk_size no_directives w = (inl (ValueError msg), w).
Proof.
  assert (Hgen : forall m, is_query_valid m = false ->
            exists msg, request m paging chunk_size no_directives w
                        = (inl (ValueError msg), w)).
  { intros m Hv. unfold AflowAPI.request. rewrite Hv.
    destruct (match chunk_size with Some c => c <? 1 | None => false end);
      [eauto|].
    destruct (match paging with Some p => p <? 0 | None => false end); eauto. }
  split.
  - intros Hns. apply Hgen, no_space_invalid, Hns.
  - apply Hgen. reflexivity.
Qed.

Lemma request_url_page_chunk (matchbook : string) (p c : Z) :
  p <> 0 ->
  request_url matchbook (Some p) (Some c) false
  = base_url +:+ matchbook +:+ "$paging(" +:+ Py.str_of_int p +:+ ","
      +:+ Py.str_of_int c +:+ ")format(json)".
Proof.
  intros Hp. unfold AflowAPI.request_url, py_or.
  destruct (Z.eqb_spec p 0); [contradiction|].
  cbn [negb]. now rewrite !string_app_assoc.
Qed.

Lemma request_url_page (matchbook : string) (p : Z) :
  p <> 0 ->
  request_url matchbook (Some p) None false
  = base_url +:+ matchbook +:+ "$paging(" +:+ Py.str_of_int p +:+ ")format(json)".
Proof.
  intros Hp. unfold AflowAPI.request_url, py_or.
  destruct (Z.eqb_spec p 0); [contradiction|].
  cbn [negb]. now rewrite !string_app_assoc.
Qed.

Lemma request_logs (matchbook : string) (paging chunk_size : option Z)
    (no_directives : bool) (w : World) :
  accepted matchbook paging chunk_size ->
  snd (request matchbook paging chunk_size no_directives w)
  = logged (request_url matchbook paging chunk_size no_directives) w.
Proof.
  intros Hacc. rewrite (request_accepted _ _ _ no_directives Hacc).
  apply make_request_then. intros r. destruct (json r); auto with world.
Qed.

(** X4. A page of 1 or more given by the caller is the page of the
    directive: the URL requested ends in [$paging(<page>)format(json)],
    and in [$paging(<page>,<chunk_size>)format(json)] when a chunk size
    is given too. *)
Theorem request_url_explicit_page (matchbook : string) (p : Z) (w : World) :
  is_query_valid matchbook = true ->
  1 <= p ->
  gets (snd (request matchbook (Some p) None false w))
  = gets w ++ [base_url +:+ matchbook +:+ "$paging(" +:+ Py.str_of_int p
                 +:+ ")format(json)"]
  /\ (forall c, 1 <= c ->
        gets (snd (request matchbook (Some p) (Some c) false w))
        = gets w ++ [base_url +:+ matchbook +:+ "$paging(" +:+ Py.str_of_int p
                       +:+ "," +:+ Py.str_of_int c +:+ ")format(json)"]).
Proof.
  intros Hv Hp. split.
  - rewrite request_logs by (repeat split; trivial; lia).
    rewrite request_url_page by lia. reflexivity.
  - intros c Hc. rewrite request_logs by (repeat split; trivial; lia).
    rewrite request_url_page_chunk by lia. reflexivity.
Qed.



End RequestPath.

(** ** More on the validation *)

(** A whitespace character is neither punctuation nor a letter. *)
Lemma space_not_punctuation_nor_alpha (c : ascii) :
  Py.isspace c = true ->
  Py.char_in c Py.punctuation = false /\ Py.isalpha c = false.
Proof.
  destruct c as [b0 b1 b2 b3 b4 b5 b6 b7].
  destruct b0, b1, b2, b3, b4, b5, b6, b7; vm_compute;
    intros H; try discriminate H; split; reflexivity.
Qed.

Lemma prefix_firstn (old s : string) :
  String.prefix old s = true ->
  firstn (String.length old) (list_ascii_of_string s) = list_ascii_of_string old.
Proof.
  revert s. induction old as [|a old IH]; intros s H; [reflexivity|].
  destruct s as [|b s]; [discriminate|]. simpl in H.
  destruct (ascii_dec a b) as [->|]; [|discriminate].
  simpl. f_equal. now apply IH.
Qed.

(** A character that the deletion of a key drops is a character of the key. *)
Lemma replace_from_dropped old k s c :
  old <> EmptyString ->
  (forall x, In x (firstn k (list_ascii_of_string s)) ->
             In x (list_ascii_of_string old)) ->
  In c (list_ascii_of_string s) ->
  In c (list_ascii_of_string (Py.replace_from old "" k s))
  \/ In c (list_ascii_of_string old).
Proof.
  intros Hold. revert k. induction s as [|a s IH]; intros k Hk Hc; [destruct Hc|].
  cbn [Py.replace_from]. destruct k as [|k].
  - destruct (String.prefix old (String a s)) eqn:Hpre.
    + pose proof (prefix_firstn _ _ Hpre) as Hfirst.
      destruct old as [|a0 old]; [contradiction|].
      cbn [String.length list_ascii_of_string firstn] in Hfirst.
      injection Hfirst as Ha Hrest. subst a0.
      change ("" +:+ ?x) with x.
      destruct Hc as [<-|Hc]; [right; now left|].
      apply IH; [|exact Hc].
      intros x Hx. right. cbn [String.length Nat.pred] in Hx.
      now rewrite Hrest in Hx.
    + destruct Hc as [<-|Hc]; [left; now left|].
      assert (H0 : forall x, In x (firstn 0 (list_ascii_of_string s)) ->
                             In x (list_ascii_of_string old))
        by (intros x []).
      destruct (IH 0%nat H0 Hc) as [H|H]; [left; now right|now right].
  - destruct Hc as [<-|Hc]; [right; apply Hk; now left|].
    apply IH; [|exact Hc]. intros x Hx. apply Hk. now right.
Qed.

Lemma replace_dropped key s c :
  In c (list_ascii_of_string s) ->
  In c (list_ascii_of_string (Py.replace key "" s))
  \/ In c (list_ascii_of_string key).
Proof.
  intros Hc. destruct key as [|a key].
  - left. simpl. now rewrite replace_empty_id.
  - apply replace_from_dropped; [discriminate| |exact Hc]. intros x [].
Qed.

Lemma strip_keywords_dropped keys s c :
  In c (list_ascii_of_string s) ->
  In c (list_ascii_of_string (AflowAPI.strip_keywords keys s))
  \/ exists key, In key keys /\ In c (list_ascii_of_string key).
Proof.
  unfold AflowAPI.strip_keywords. revert s.
  induction keys as [|key keys IH]; intros s Hc; [now left|].
  cbn [fold_left].
  destruct (Py.contains key s).
  - destruct (replace_dropped key s c Hc) as [H|H].
    + destruct (IH _ H) as [H'|(k & Hk & Hin)]; [now left|].
      right. exists k. split; [now right|exact Hin].
    + right. exists key. split; [now left|exact H].
  - destruct (IH _ Hc) as [H'|(k & Hk & Hin)]; [now left|].
    right. exists k. split; [now right|exact Hin].
Qed.

Section Validation.

Variable API_KEYWORDS : list string.
Variable API_OPERATORS : list string.

Local Abbreviation is_query_valid :=
  (AflowAPI._is_query_valid API_KEYWORDS API_OPERATORS).

(** X7. In a query that passes the validation, every letter is a letter
    of some keyword: a query with a letter that occurs in no keyword is
    refused. *)
Theorem valid_query_letters_from_keywords (query : string) (c : ascii) :
  is_query_valid query = true ->
  In c (list_ascii_of_string query) ->
  Py.isalpha c = true ->
  exists key, In key API_KEYWORDS /\ In c (list_ascii_of_string key).
Proof.
  unfold AflowAPI._is_query_valid. intros Hv Hin Ha.
  apply andb_true_iff in Hv as [_ Hkw].
  apply length_zero_empty in Hkw.
  destruct (strip_keywords_dropped API_KEYWORDS
              (string_of_list_ascii
                 (List.filter Py.isalpha (list_ascii_of_string query))) c)
    as [H|H].
  - rewrite list_ascii_of_string_of_list_ascii. apply filter_In. now split.
  - rewrite Hkw in H. destruct H.
  - exact H.
Qed.

(** The two checks that do not look at whitespace. *)
Local Abbreviation other_checks query :=
  (forallb (fun c => existsb (String.eqb (String c "")) API_OPERATORS)
     (List.filter (fun c => Py.char_in c Py.punctuation)
        (list_ascii_of_string query))
   && Nat.eqb
        (String.length
           (AflowAPI.strip_keywords API_KEYWORDS
              (string_of_list_ascii
                 (List.filter Py.isalpha (list_ascii_of_string query)))))
        0).

Lemma valid_with_space (q1 q2 : string) (c : ascii) :
  Py.isspace c = true ->
  is_query_valid (q1 +:+ String c q2) = other_checks (q1 +:+ q2).
Proof.
  intros Hc. destruct (space_not_punctuation_nor_alpha c Hc) as [Hp Ha].
  unfold AflowAPI._is_query_valid.
  rewrite !list_ascii_app. cbn [list_ascii_of_string].
  rewrite !List.filter_app. cbn [List.filter]. rewrite Hp, Ha.
  rewrite List.existsb_app. cbn [existsb]. rewrite Hc.
  rewrite orb_true_r. reflexivity.
Qed.

Lemma valid_implies_other_checks (query : string) :
  is_query_valid query = true -> other_checks query = true.
Proof.
  unfold AflowAPI._is_query_valid. intros H.
  apply andb_true_iff in H as [H Hkw]. apply andb_true_iff in H as [_ Hop].
  now rewrite Hop, Hkw.
Qed.

(** X6. Whitespace only counts by being there: a whitespace character
    put anywhere into a valid query leaves it valid, and the verdict on
    a query with a whitespace character does not depend on where that
    character stands nor on which whitespace character it is. *)
Theorem whitespace_position_irrelevant (q1 q2 : string) (c c' : ascii) :
  Py.isspace c = true ->
  Py.isspace c' = true ->
  (is_query_valid (q1 +:+ q2) = true ->
   is_query_valid (q1 +:+ String c q2) = true)
  /\ is_query_valid (q1 +:+ String c q2) = is_query_valid (String c' (q1 +:+ q2)).
Proof.
  intros Hc Hc'. split.
  - intros Hv. rewrite (valid_with_space q1 q2 c Hc).
    now apply valid_implies_other_checks.
  - rewrite (valid_with_space q1 q2 c Hc).
    symmetry. apply (valid_with_space "" (q1 +:+ q2) c' Hc').
Qed.

End Validation.

(** ** More on [help] and the per-entry helpers *)

(** Replacing each colon by a slash is a change character by character. *)
Lemma replace_colons (s : string) : Py.replace ":" "/" s = colons_to_slashes s.
Proof.
  unfold Py.replace, colons_to_slashes.
  induction s as [|a s IH]; [reflexivity|].
  cbn [Py.replace_from list_ascii_of_string map string_of_list_ascii].
  rewrite <- IH. cbn [String.prefix].
  destruct (ascii_dec ":" a) as [<-|Hne].
  - destruct s; reflexivity.
  - destruct (Ascii.eqb_spec a ":") as [->|_]; [contradiction|reflexivity].
Qed.

Lemma colons_to_slashes_no_colon (s : string) :
  Py.char_in ":" (colons_to_slashes s) = false.
Proof.
  unfold colons_to_slashes.
  induction s as [|a s IH]; [reflexivity|].
  cbn [list_ascii_of_string map string_of_list_ascii].
  rewrite char_in_cons, IH.
  destruct (Ascii.eqb_spec a ":") as [->|Hne]; [reflexivity|].
  rewrite orb_false_r. apply Ascii.eqb_neq. congruence.
Qed.

Lemma colons_to_slashes_length (s : string) :
  String.length (colons_to_slashes s) = String.length s.
Proof.
  unfold colons_to_slashes.
  induction s as [|a s IH]; [reflexivity|].
  cbn [list_ascii_of_string map string_of_list_ascii String.length].
  now rewrite IH.
Qed.

(** A string of whitespace strips to the empty string. *)
Lemma strip_blank (s : string) :
  (forall c, In c (list_ascii_of_string s) -> Py.isspace c = true) ->
  Py.strip s = "".
Proof.
  unfold Py.strip. induction s as [|a s IH]; intros H; [reflexivity|].
  cbn [Py.lstrip]. rewrite (H a (or_introl eq_refl)).
  apply IH. intros c Hc. apply H. now right.
Qed.

Lemma bind_deref {A} entry (k : gmap string Json -> M A) w :
  bind (deref entry) k w = k (heap w entry) w.
Proof. reflexivity. Qed.

Lemma bind_lift_inr {A B} (a : A) (k : A -> M B) w : bind (lift (inr a)) k w = k a w.
Proof. reflexivity. Qed.

Lemma bind_lift_inl {A B} (e : Exn) (k : A -> M B) w :
  bind (lift (inl e)) k w = (inl e, w).
Proof. reflexivity. Qed.

Section Helpers.

Variables SERVER API : string.
Variable DEFAULT_PAGING : Z.
Variable API_KEYWORDS : list string.
Variable API_OPERATORS : list string.
Variable session_get : string -> GetResult.
Variable repr : Json -> string.

Local Abbreviation is_query_valid :=
  (AflowAPI._is_query_valid API_KEYWORDS API_OPERATORS).
Local Abbreviation request :=
  (AflowAPI.request SERVER API DEFAULT_PAGING API_KEYWORDS API_OPERATORS session_get).
Local Abbreviation help :=
  (AflowAPI.help SERVER API DEFAULT_PAGING API_KEYWORDS API_OPERATORS session_get repr).
Local Abbreviation get_contcar := (AflowAPI.get_contcar session_get).
Local Abbreviation get_property := (AflowAPI.get_property session_get).

(** X8. [help] never succeeds and has no effect: with or without a
    keyword it raises, [AttributeError] for the missing method or
    [ValueError] for a keyword that is not valid, and the world (GET
    log and printed lines) stays as it was. *)
Theorem help_always_raises (keyword : option string) (w : World) :
  exists e,
    help keyword w = (inl e, w)
    /\ (e = AttributeError "aflux_request"
        \/ e = ValueError "Invalid query: contains invalid keywords").
Proof.
  unfold AflowAPI.help, AflowAPI.help_via.
  destruct keyword as [keyword|].
  - destruct (is_query_valid keyword).
    + eexists. split; [reflexivity|now left].
    + eexists. split; [reflexivity|now right].
  - eexists. split; [reflexivity|now left].
Qed.

Ltac split_matches :=
  repeat match goal with
         | |- context [match ?x with _ => _ end] => destruct x
         end.

Lemma get_contcar_world (entry : nat) (w : World) :
  snd (get_contcar entry w) = w
  \/ exists url, snd (get_contcar entry w) = logged url w.
Proof.
  unfold AflowAPI.get_contcar. rewrite !bind_deref.
  destruct (negb (has_key "aurl" (heap w entry))); [now left|].
  destruct (dict_getitem (heap w entry) "aurl") as [e|v];
    [rewrite !bind_lift_inl; now left|rewrite !bind_lift_inr].
  destruct (str_replace v ":" "/") as [e|aurl];
    [rewrite !bind_lift_inl; now left|rewrite !bind_lift_inr].
  right. eexists. apply make_request_then.
  intros r. repeat world_step.
Qed.

Lemma get_property_world (entry : nat) (property : string) (w : World) :
  snd (get_property entry property w) = w
  \/ exists url, snd (get_property entry property w) = logged url w.
Proof.
  unfold AflowAPI.get_property. rewrite !bind_deref.
  destruct (negb (has_key "aurl" (heap w entry))); [now left|].
  destruct (dict_getitem (heap w entry) "aurl") as [e|v];
    [rewrite !bind_lift_inl; now left|rewrite !bind_lift_inr].
  destruct (str_replace v ":" "/") as [e|aurl];
    [rewrite !bind_lift_inl; now left|rewrite !bind_lift_inr].
  right. eexists. apply make_request_then.
  intros r. repeat world_step.
Qed.

Lemma request_world (matchbook : string) (paging chunk_size : option Z)
    (no_directives : bool) (w : World) :
  snd (request matchbook paging chunk_size no_directives w) = w
  \/ exists url,
       snd (request matchbook paging chunk_size no_directives w) = logged url w.
Proof.
  unfold AflowAPI.request.
  destruct (match chunk_size with Some c => c <? 1 | None => false end);
    [now left|].
  destruct (match paging with Some p => p <? 0 | None => false end); [now left|].
  destruct (negb (is_query_valid matchbook)); [now left|].
  right. eexists. apply make_request_then.
  intros r. repeat world_step.
Qed.

(** X9. One call, at most one GET, and nothing printed: after
    [request], [get_contcar] or [get_property], on every path, the world
    is the one before the call or that world with exactly one URL added
    at the end of the GET log. *)
Theorem one_call_at_most_one_get (w : World) :
  (forall matchbook paging chunk_size no_directives,
      snd (request matchbook paging chunk_size no_directives w) = w
      \/ exists url,
           snd (request matchbook paging chunk_size no_directives w)
           = logged url w)
  /\ (forall entry,
        snd (get_contcar entry w) = w
        \/ exists url, snd (get_contcar entry w) = logged url w)
  /\ (forall entry property,
        snd (get_property entry property w) = w
        \/ exists url, snd (get_property entry property w) = logged url w).
Proof.
  repeat split; intros.
  - apply request_world.
  - apply get_contcar_world.
  - apply get_property_world.
Qed.

End Helpers.

Section EntryHelpers.

Variable session_get : string -> GetResult.

Local Abbreviation get_contcar := (AflowAPI.get_contcar session_get).
Local Abbreviation get_property := (AflowAPI.get_property session_get).
Local Abbreviation contcar_url a :=
  ("http://" +:+ Py.replace ":" "/" a +:+ "/CONTCAR.relax").
Local Abbreviation property_url a property :=
  ("http://" +:+ Py.replace ":" "/" a +:+ "/?" +:+ property).

Ltac enter_helper Haurl :=
  unfold AflowAPI.get_contcar, AflowAPI.get_property;
  rewrite ?bind_deref; unfold has_key, dict_getitem;
  rewrite ?Haurl; cbn [negb str_replace]; rewrite ?bind_lift_inr;
  cbn [str_replace]; rewrite ?bind_lift_inr.

(** X10. With a string under ["aurl"], each helper issues its one GET
    whatever the server answers: [get_contcar] to [http://], the
    locator with every colon turned into a slash, and [/CONTCAR.relax];
    [get_property] to the same address followed by [/?] and the
    property.  The rewritten locator has the length of the original and
    no colon. *)
Theorem entry_helpers_url (entry : nat) (property : string) (w : World)
    (a : string) :
  heap w entry !! "aurl" = Some (JStr a) ->
  snd (get_contcar entry w)
  = logged ("http://" +:+ colons_to_slashes a +:+ "/CONTCAR.relax") w
  /\ snd (get_property entry property w)
     = logged ("http://" +:+ colons_to_slashes a +:+ "/?" +:+ property) w
  /\ Py.char_in ":" (colons_to_slashes a) = false
  /\ String.length (colons_to_slashes a) = String.length a.
Proof.
  intros Haurl. repeat split.
  - enter_helper Haurl. rewrite replace_colons.
    apply make_request_then. intros r. repeat world_step.
  - enter_helper Haurl. rewrite replace_colons.
    apply make_request_then. intros r. repeat world_step.
  - apply colons_to_slashes_no_colon.
  - apply colons_to_slashes_length.
Qed.

(** X11. A download that fails ends both helpers: on an HTTP error
    they raise [RuntimeError] with the text of the error after [Failed
    to download AFLUX data.], and when no response comes the exception
    of the transport passes through; no text is patched or split. *)
Theorem entry_helpers_failed_download (entry : nat) (property : string)
    (w : World) (a : string) :
  heap w entry !! "aurl" = Some (JStr a) ->
  (forall r e, session_get (contcar_url a) = Responded r ->
               http_error r = Some e ->
     fst (get_contcar entry w)
     = inl (RuntimeError ("Failed to download AFLUX data."
                            +:+ String Py.LF (String Py.TAB e))))
  /\ (forall msg, session_get (contcar_url a) = Failed msg ->
        fst (get_contcar entry w) = inl (RequestException msg))
  /\ (forall r e, session_get (property_url a property) = Responded r ->
                  http_error r = Some e ->
        fst (get_property entry property w)
        = inl (RuntimeError ("Failed to download AFLUX data."
                               +:+ String Py.LF (String Py.TAB e))))
  /\ (forall msg, session_get (property_url a property) = Failed msg ->
        fst (get_property entry property w) = inl (RequestException msg)).
Proof.
  intros Haurl. repeat split.
  - intros r e Hget He. enter_helper Haurl.
    unfold bind, AflowAPI._make_request. now rewrite Hget, He.
  - intros msg Hget. enter_helper Haurl.
    unfold bind, AflowAPI._make_request. now rewrite Hget.
  - intros r e Hget He. enter_helper Haurl.
    unfold bind, AflowAPI._make_request. now rewrite Hget, He.
  - intros msg Hget. enter_helper Haurl.
    unfold bind, AflowAPI._make_request. now rewrite Hget.
Qed.

(** X12. When the value under ["aurl"] is not a string, both helpers
    raise [AttributeError] for the missing [replace] and issue no GET. *)
Theorem entry_helpers_aurl_not_string (entry : nat) (property : string)
    (w : World) (v : Json) :
  heap w entry !! "aurl" = Some v ->
  (forall s, v <> JStr s) ->
  get_contcar entry w = (inl (AttributeError "replace"), w)
  /\ get_property entry property w = (inl (AttributeError "replace"), w).
Proof.
  intros Haurl Hv.
  unfold AflowAPI.get_contcar, AflowAPI.get_property.
  rewrite !bind_deref. unfold has_key, dict_getitem. rewrite Haurl.
  cbn [negb]. rewrite !bind_lift_inr.
  destruct v; try (split; reflexivity). now destruct (Hv s).
Qed.

(** What [get_contcar] returns after a successful download. *)
Lemma get_contcar_after_download (entry : nat) (w : World) (a : string)
    (r : Response) :
  heap w entry !! "aurl" = Some (JStr a) ->
  session_get (contcar_url a) = Responded r ->
  http_error r = None ->
  get_contcar entry w
  = (match list_getitem (Py.split Py.LF (text r)) 5 with
     | inl e => inl e
     | inr line5 =>
         match str_first (Py.strip line5) with
         | inl e => inl e
         | inr c =>
             if Py.isnumeric c
             then match dict_getitem (heap w entry) "species" with
                  | inl e => inl e
                  | inr species =>
                      match iter_strs species with
                      | inl e => inl e
                      | inr names =>
                          inr (Py.join (String Py.LF "")
                                 (Py.list_insert 5 (Py.join " " names)
                                    (Py.split Py.LF (text r))))
                      end
                  end
             else inr (text r)
         end
     end, logged (contcar_url a) w).
Proof.
  intros Haurl Hget Hok.
  unfold AflowAPI.get_contcar.
  rewrite bind_deref. unfold has_key. rewrite Haurl. cbn [negb].
  unfold dict_getitem at 1. rewrite Haurl, bind_lift_inr.
  cbn [str_replace]. rewrite bind_lift_inr.
  unfold bind at 1, AflowAPI._make_request. rewrite Hget, Hok.
  fold (logged (contcar_url a) w).
  destruct (list_getitem (Py.split Py.LF (text r)) 5) as [e|line5];
    [reflexivity|rewrite bind_lift_inr].
  destruct (str_first (Py.strip line5)) as [e|c];
    [reflexivity|rewrite bind_lift_inr].
  destruct (Py.isnumeric c).
  - unfold bind at 1. unfold bind at 1. cbn [heap logged].
    destruct (dict_getitem (heap w entry) "species") as [e|species];
      [reflexivity|].
    cbn [lift]. unfold bind at 1.
    destruct (iter_strs species) as [e|names]; reflexivity.
  - unfold bind, ret. now rewrite join_split.
Qed.

(** X13. When line 5 of the fetched text starts with a numeric
    character and the entry has no key ["species"], [get_contcar]
    raises [KeyError] for it, after the GET. *)
Theorem get_contcar_missing_species (entry : nat) (w : World) (a : string)
    (r : Response) (line5 : string) (c : ascii) (rest : string) :
  heap w entry !! "aurl" = Some (JStr a) ->
  session_get (contcar_url a) = Responded r ->
  http_error r = None ->
  nth_error (Py.split Py.LF (text r)) 5 = Some line5 ->
  Py.strip line5 = String c rest ->
  Py.isnumeric c = true ->
  heap w entry !! "species" = None ->
  get_contcar entry w = (inl (KeyError "species"), logged (contcar_url a) w).
Proof.
  intros Haurl Hget Hok H5 Hstrip Hnum Hsp.
  rewrite (get_contcar_after_download entry w a r Haurl Hget Hok).
  unfold list_getitem, dict_getitem. rewrite H5, Hstrip. cbn [str_first].
  now rewrite Hnum, Hsp.
Qed.

(** X14. The patched text, line by line: when line 5 starts with a
    numeric character and no species name holds a line feed, the result
    has one line more than the fetched text; its lines 0 to 4 are those
    of the text, its line 5 is the species names joined by spaces, and
    its line 6 is the former line 5. *)
Theorem get_contcar_patched_lines (entry : nat) (w : World) (a : string)
    (r : Response) (line5 : string) (c : ascii) (rest : string)
    (species : Json) (names : list string) :
  heap w entry !! "aurl" = Some (JStr a) ->
  session_get (contcar_url a) = Responded r ->
  http_error r = None ->
  nth_error (Py.split Py.LF (text r)) 5 = Some line5 ->
  Py.strip line5 = String c rest ->
  Py.isnumeric c = true ->
  heap w entry !! "species" = Some species ->
  iter_strs species = inr names ->
  Forall (fun name => Py.char_in Py.LF name = false) names ->
  exists poscar,
    fst (get_contcar entry w) = inr poscar
    /\ length (Py.split Py.LF poscar) = S (length (Py.split Py.LF (text r)))
    /\ firstn 5 (Py.split Py.LF poscar) = firstn 5 (Py.split Py.LF (text r))
    /\ nth_error (Py.split Py.LF poscar) 5 = Some (Py.join " " names)
    /\ nth_error (Py.split Py.LF poscar) 6 = Some line5
    /\ skipn 6 (Py.split Py.LF poscar) = skipn 5 (Py.split Py.LF (text r)).
Proof.
  intros Haurl Hget Hok H5 Hstrip Hnum Hsp Hnames HF.
  rewrite (get_contcar_after_download entry w a r Haurl Hget Hok).
  unfold list_getitem, dict_getitem. rewrite H5, Hstrip. cbn [str_first].
  rewrite Hnum, Hsp, Hnames. eexists. split; [reflexivity|].
  assert (Hline : Py.char_in Py.LF (Py.join " " names) = false)
    by (apply char_in_join; [reflexivity|exact HF]).
  destruct (patched_text_lines (text r) (Py.join " " names) Hline) as [Hs Hl].
  rewrite Hs. split; [exact Hl|].
  assert (Hlen : (5 < length (Py.split Py.LF (text r)))%nat)
    by (apply nth_error_Some; rewrite H5; discriminate).
  assert (Hfirst : length (firstn 5 (Py.split Py.LF (text r))) = 5%nat)
    by (rewrite List.length_firstn; lia).
  unfold Py.list_insert.
  assert (Hnext : nth_error (skipn 5 (Py.split Py.LF (text r))) 0 = Some line5).
  { rewrite <- H5. rewrite <- (firstn_skipn 5 (Py.split Py.LF (text r))) at 2.
    rewrite List.nth_error_app2 by lia. now rewrite Hfirst. }
  repeat split.
  - rewrite List.firstn_app, Hfirst. cbn [Nat.sub firstn].
    rewrite List.firstn_firstn. cbn [Nat.min]. now rewrite List.app_nil_r.
  - rewrite List.nth_error_app2 by lia. now rewrite Hfirst.
  - rewrite List.nth_error_app2 by lia. rewrite Hfirst. exact Hnext.
  - rewrite List.skipn_app, Hfirst.
    rewrite List.skipn_all2 by lia. reflexivity.
Qed.

(** X15. Patching is not done twice: a text that has, as its line 5,
    species names joined by spaces (as [get_contcar] writes them), the
    first of which does not start with a numeric character, comes back
    as it is. *)
Theorem get_contcar_keeps_patched_text (entry : nat) (w : World) (a : string)
    (r : Response) (body : string) (names : list string) (c : ascii)
    (rest : string) :
  heap w entry !! "aurl" = Some (JStr a) ->
  session_get (contcar_url a) = Responded r ->
  http_error r = None ->
  text r = Py.join (String Py.LF "")
             (Py.list_insert 5 (Py.join " " names) (Py.split Py.LF body)) ->
  (5 <= length (Py.split Py.LF body))%nat ->
  Forall (fun name => Py.char_in Py.LF name = false) names ->
  Py.strip (Py.join " " names) = String c rest ->
  Py.isnumeric c = false ->
  fst (get_contcar entry w) = inr (text r).
Proof.
  intros Haurl Hget Hok Htext Hlen HF Hstrip Hnum.
  rewrite (get_contcar_after_download entry w a r Haurl Hget Hok).
  assert (Hline : Py.char_in Py.LF (Py.join " " names) = false)
    by (apply char_in_join; [reflexivity|exact HF]).
  destruct (patched_text_lines body (Py.join " " names) Hline) as [Hs _].
  assert (H5 : nth_error (Py.split Py.LF (text r)) 5 = Some (Py.join " " names)).
  { rewrite Htext, Hs. unfold Py.list_insert.
    rewrite List.nth_error_app2 by (rewrite List.length_firstn; lia).
    rewrite List.length_firstn.
    replace (5 - Nat.min 5 (length (Py.split Py.LF body)))%nat with 0%nat by lia.
    reflexivity. }
  unfold list_getitem. rewrite H5, Hstrip. cbn [str_first fst].
  now rewrite Hnum.
Qed.

(** X16. The list that [get_property] returns after a successful
    download is never empty, none of its elements holds a [;], and the
    elements joined by [;] give back the stripped body. *)
Theorem get_property_pieces (entry : nat) (property : string) (w : World)
    (a : string) (r : Response) :
  heap w entry !! "aurl" = Some (JStr a) ->
  session_get (property_url a property) = Responded r ->
  http_error r = None ->
  exists values,
    fst (get_property entry property w) = inr values
    /\ values <> []
    /\ Forall (fun value => Py.char_in ";" value = false) values
    /\ Py.join ";" values = Py.strip (text r).
Proof.
  intros Haurl Hget Hok.
  exists (Py.split ";" (Py.strip (text r))). split.
  - enter_helper Haurl. unfold bind, AflowAPI._make_request.
    rewrite Hget, Hok. cbn [fst ret]. now rewrite property_loop_fst.
  - split; [apply split_nonempty|]. split; [apply split_pieces|].
    apply join_split.
Qed.

(** X17. For a body that is empty or all whitespace, [get_property]
    returns the list with the empty string as its one element. *)
Theorem get_property_blank_body (entry : nat) (property : string) (w : World)
    (a : string) (r : Response) :
  heap w entry !! "aurl" = Some (JStr a) ->
  session_get (property_url a property) = Responded r ->
  http_error r = None ->
  (forall c, In c (list_ascii_of_string (text r)) -> Py.isspace c = true) ->
  fst (get_property entry property w) = inr [""].
Proof.
  intros Haurl Hget Hok Hblank.
  enter_helper Haurl. unfold bind, AflowAPI._make_request.
  rewrite Hget, Hok. cbn [fst ret].
  now rewrite property_loop_fst, (strip_blank _ Hblank).
Qed.

End EntryHelpers.

(** ** The session *)

Lemma mount_all_other (adapter : AflowSession.Adapter) (protocols : list string)
    (session : AflowSession.Session) (prefix : string) :
  ~ In prefix protocols ->
  AflowSession.adapters
    (fold_left (fun s protocol => AflowSession.mount protocol adapter s)
       protocols session) !! prefix
  = AflowSession.adapters session !! prefix.
Proof.
  revert session. induction protocols as [|p ps IH]; intros session Hnot;
    [reflexivity|].
  cbn [fold_left]. rewrite IH by (intros H; apply Hnot; now right).
  unfold AflowSession.mount; cbn [AflowSession.adapters].
  apply lookup_insert_ne. intros ->. apply Hnot. now left.
Qed.

Lemma mount_all_mounted (adapter : AflowSession.Adapter) (protocols : list string)
    (session : AflowSession.Session) (prefix : string) :
  In prefix protocols ->
  AflowSession.adapters
    (fold_left (fun s protocol => AflowSession.mount protocol adapter s)
       protocols session) !! prefix
  = Some adapter.
Proof.
  revert session. induction protocols as [|p ps IH]; intros session Hin;
    [destruct Hin|].
  cbn [fold_left].
  destruct (in_dec string_dec prefix ps) as [Hps|Hps]; [now apply IH|].
  rewrite mount_all_other by exact Hps.
  destruct Hin as [->|Hin]; [|contradiction].
  unfold AflowSession.mount; cbn [AflowSession.adapters].
  apply lookup_insert_eq.
Qed.

(** X18. Without a retry count, [_create_session] returns a fresh
    session with its default adapters.  With a count [n], every
    protocol of [PROTOCOLS] gets one and the same adapter, whose retry
    policy has [n] as total, read and connect count, honours
    [Retry-After] and carries [STATUS_FORCELIST]; every other prefix
    keeps the adapter of a fresh session. *)
Theorem create_session_adapters (PROTOCOLS : list string)
    (STATUS_FORCELIST : list Z) :
  AflowSession._create_session PROTOCOLS STATUS_FORCELIST None
  = AflowSession.new_session
  /\ forall (n : Z) (prefix : string),
       (In prefix PROTOCOLS ->
        AflowSession.adapters
          (AflowSession._create_session PROTOCOLS STATUS_FORCELIST (Some n))
          !! prefix
        = Some (AflowSession.RetryAdapter
                  {| AflowSession.total := n; AflowSession.read := n;
                     AflowSession.connect := n;
                     AflowSession.respect_retry_after_header := true;
                     AflowSession.status_forcelist := STATUS_FORCELIST |}))
       /\ (~ In prefix PROTOCOLS ->
           AflowSession.adapters
             (AflowSession._create_session PROTOCOLS STATUS_FORCELIST (Some n))
             !! prefix
           = AflowSession.adapters AflowSession.new_session !! prefix).
Proof.
  split; [reflexivity|]. intros n prefix.
  unfold AflowSession._create_session. split; intros H.
  - now apply mount_all_mounted.
  - now apply mount_all_other.
Qed.

(** ** The further theorems at the sample data *)

Lemma request_outcomes_witness :
  AflowAPI._is_query_valid Sample.KEYWORDS Sample.OPERATORS "species, Egap(*)" = true
  /\ AflowAPI.request Sample.SERVER Sample.API Sample.DEFAULT_PAGING
       Sample.KEYWORDS Sample.OPERATORS Sample.network
       "species, Egap(*)" None (Some 5) false Sample.world
     = (inr (JArr []),
        logged "https://aflow.org/API/aflux/?species, Egap(*)$paging(0,5)format(json)"
          Sample.world).
Proof.
  assert (Hv : AflowAPI._is_query_valid Sample.KEYWORDS Sample.OPERATORS
                 "species, Egap(*)" = true) by (vm_compute; reflexivity).
  split; [exact Hv|].
  assert (Hc : 1 <= 5) by lia.
  exact (proj2 (proj2 (proj2 (proj2 (proj2
           (request_outcomes Sample.SERVER Sample.API Sample.DEFAULT_PAGING
              Sample.KEYWORDS Sample.OPERATORS Sample.network
              "species, Egap(*)" None (Some 5) false Sample.world
              (conj Hc (conj I Hv)))))))
           {| http_error := None; text := "[]"; json := Decoded (JArr []) |}
           (JArr []) eq_refl eq_refl eq_refl).
Defined.

Lemma request_error_kinds_witness :
  (exists msg, ValueError "chunk_size must be greater than 0" = ValueError msg)
  \/ (exists msg, ValueError "chunk_size must be greater than 0" = RuntimeError msg)
  \/ (exists msg,
        ValueError "chunk_size must be greater than 0" = RequestException msg).
Proof.
  exact (request_error_kinds Sample.SERVER Sample.API Sample.DEFAULT_PAGING
           Sample.KEYWORDS Sample.OPERATORS Sample.network
           "species, Egap(*)" None (Some 0) false Sample.world
           (ValueError "chunk_size must be greater than 0") eq_refl).
Defined.

Lemma request_url_explicit_page_witness :
  gets (snd (AflowAPI.request Sample.SERVER Sample.API Sample.DEFAULT_PAGING
               Sample.KEYWORDS Sample.OPERATORS Sample.network
               "species, Egap(*)" (Some 2) None false Sample.world))
  = ["https://aflow.org/API/aflux/?species, Egap(*)$paging(2)format(json)"].
Proof.
  assert (Hv : AflowAPI._is_query_valid Sample.KEYWORDS Sample.OPERATORS
                 "species, Egap(*)" = true) by (vm_compute; reflexivity).
  assert (Hp : 1 <= 2) by lia.
  exact (proj1
           (request_url_explicit_page Sample.SERVER Sample.API
              Sample.DEFAULT_PAGING Sample.KEYWORDS Sample.OPERATORS
              Sample.network "species, Egap(*)" 2 Sample.world Hv Hp)).
Defined.


Lemma whitespace_position_irrelevant_witness :
  AflowAPI._is_query_valid Sample.KEYWORDS Sample.OPERATORS "species, Egap(*)"
  = AflowAPI._is_query_valid Sample.KEYWORDS Sample.OPERATORS
      (String Py.TAB "species,Egap(*)").
Proof.
  exact (proj2
           (whitespace_position_irrelevant Sample.KEYWORDS Sample.OPERATORS
              "species," "Egap(*)" " " Py.TAB eq_refl eq_refl)).
Defined.

Lemma valid_query_letters_from_keywords_witness :
  exists key, In key Sample.KEYWORDS /\ In "E"%char (list_ascii_of_string key).
Proof.
  assert (Hv : AflowAPI._is_query_valid Sample.KEYWORDS Sample.OPERATORS
                 "species, Egap(*)" = true) by (vm_compute; reflexivity).
  assert (Hin : In "E"%char (list_ascii_of_string "species, Egap(*)"))
    by (simpl; tauto).
  exact (valid_query_letters_from_keywords Sample.KEYWORDS Sample.OPERATORS
           "species, Egap(*)" "E" Hv Hin eq_refl).
Defined.

Lemma entry_helpers_url_witness :
  snd (AflowAPI.get_contcar Sample.network 0 Sample.world)
  = logged "http://aflowlib.duke.edu/AFLOWDATA/LIB2/SiC/CONTCAR.relax" Sample.world.
Proof.
  exact (proj1
           (entry_helpers_url Sample.network 0 "Egap" Sample.world
              "aflowlib.duke.edu:AFLOWDATA/LIB2/SiC" eq_refl)).
Defined.

Lemma entry_helpers_failed_download_witness :
  fst (AflowAPI.get_contcar Cases.network_error 0 Sample.world)
  = inl (RuntimeError
           ("Failed to download AFLUX data."
              +:+ String Py.LF
                    (String Py.TAB
                       ("404 Client Error: Not Found for url: "
                          +:+ "http://aflowlib.duke.edu/AFLOWDATA/LIB2/SiC/CONTCAR.relax"))))
  /\ fst (AflowAPI.get_property Cases.network_down 0 "Egap" Sample.world)
     = inl (RequestException "Connection refused").
Proof.
  split.
  - exact (proj1
             (entry_helpers_failed_download Cases.network_error 0 "Egap"
                Sample.world "aflowlib.duke.edu:AFLOWDATA/LIB2/SiC" eq_refl)
             _ _ eq_refl eq_refl).
  - exact (proj2 (proj2 (proj2
             (entry_helpers_failed_download Cases.network_down 0 "Egap"
                Sample.world "aflowlib.duke.edu:AFLOWDATA/LIB2/SiC" eq_refl)))
             _ eq_refl).
Defined.

Lemma entry_helpers_aurl_not_string_witness :
  AflowAPI.get_contcar Sample.network 0 (Cases.world_of Cases.entry_aurl_list)
  = (inl (AttributeError "replace"), Cases.world_of Cases.entry_aurl_list)
  /\ AflowAPI.get_property Sample.network 0 "Egap"
       (Cases.world_of Cases.entry_aurl_list)
     = (inl (AttributeError "replace"), Cases.world_of Cases.entry_aurl_list).
Proof.
  assert (Hv : forall s,
             JArr [JStr "aflowlib.duke.edu"; JStr "AFLOWDATA/LIB2/SiC"] <> JStr s)
    by (intros s; discriminate).
  exact (entry_helpers_aurl_not_string Sample.network 0 "Egap"
           (Cases.world_of Cases.entry_aurl_list) _ eq_refl Hv).
Defined.

Lemma get_contcar_missing_species_witness :
  AflowAPI.get_contcar Cases.network_vasp4 0 (Cases.world_of Cases.entry_no_species)
  = (inl (KeyError "species"),
     logged "http://aflowlib.duke.edu/AFLOWDATA/LIB2/SiC/CONTCAR.relax"
       (Cases.world_of Cases.entry_no_species)).
Proof.
  exact (get_contcar_missing_species Cases.network_vasp4 0
           (Cases.world_of Cases.entry_no_species)
           "aflowlib.duke.edu:AFLOWDATA/LIB2/SiC"
           {| http_error := None; text := Sample.contcar_vasp4; json := JSONDecodeError |}
           "  1 1" "1" " 1" eq_refl eq_refl eq_refl eq_refl eq_refl eq_refl eq_refl).
Defined.

Lemma get_contcar_patched_lines_witness :
  exists poscar,
    fst (AflowAPI.get_contcar Sample.network 0 Sample.world) = inr poscar
    /\ length (Py.split Py.LF poscar)
       = S (length (Py.split Py.LF Sample.contcar_vasp4))
    /\ firstn 5 (Py.split Py.LF poscar)
       = firstn 5 (Py.split Py.LF Sample.contcar_vasp4)
    /\ nth_error (Py.split Py.LF poscar) 5 = Some "Si C"
    /\ nth_error (Py.split Py.LF poscar) 6 = Some "  1 1"
    /\ skipn 6 (Py.split Py.LF poscar)
       = skipn 5 (Py.split Py.LF Sample.contcar_vasp4).
Proof.
  assert (HF : Forall (fun name => Py.char_in Py.LF name = false) ["Si"; "C"])
    by (repeat constructor).
  exact (get_contcar_patched_lines Sample.network 0 Sample.world
           "aflowlib.duke.edu:AFLOWDATA/LIB2/SiC"
           {| http_error := None; text := Sample.contcar_vasp4; json := JSONDecodeError |}
           "  1 1" "1" " 1" (JArr [JStr "Si"; JStr "C"]) ["Si"; "C"]
           eq_refl eq_refl eq_refl eq_refl eq_refl eq_refl eq_refl eq_refl HF).
Defined.

Lemma get_contcar_keeps_patched_text_witness :
  fst (AflowAPI.get_contcar Sample.network 1 Sample.world)
  = inr Sample.contcar_vasp5.
Proof.
  assert (HF : Forall (fun name => Py.char_in Py.LF name = false) ["Si"; "C"])
    by (repeat constructor).
  assert (Hlen : (5 <= length (Py.split Py.LF Sample.contcar_vasp4))%nat)
    by (vm_compute; lia).
  exact (get_contcar_keeps_patched_text Sample.network 1 Sample.world
           "aflowlib.duke.edu:AFLOWDATA/LIB2/SiC5"
           {| http_error := None; text := Sample.contcar_vasp5; json := JSONDecodeError |}
           Sample.contcar_vasp4 ["Si"; "C"] "S" "i C"
           eq_refl eq_refl eq_refl eq_refl Hlen HF eq_refl eq_refl).
Defined.

Lemma get_property_pieces_witness :
  exists values,
    fst (AflowAPI.get_property Sample.network 0 "Egap" Sample.world) = inr values
    /\ values <> []
    /\ Forall (fun value => Py.char_in ";" value = false) values
    /\ Py.join ";" values = "1.0; 2.0;3.0".
Proof.
  exact (get_property_pieces Sample.network 0 "Egap" Sample.world
           "aflowlib.duke.edu:AFLOWDATA/LIB2/SiC"
           {| http_error := None; text := "1.0; 2.0;3.0"; json := JSONDecodeError |}
           eq_refl eq_refl eq_refl).
Defined.

Lemma get_property_blank_body_witness :
  fst (AflowAPI.get_property Cases.network_blank 0 "Egap" Sample.world)
  = inr [""].
Proof.
  assert (Hblank : forall c,
             In c (list_ascii_of_string
                     (String " " (String Py.LF (String Py.TAB EmptyString)))) ->
             Py.isspace c = true)
    by (intros c [<-|[<-|[<-|[]]]]; reflexivity).
  exact (get_property_blank_body Cases.network_blank 0 "Egap" Sample.world
           "aflowlib.duke.edu:AFLOWDATA/LIB2/SiC"
           {| http_error := None;
              text := String " " (String Py.LF (String Py.TAB EmptyString));
              json := JSONDecodeError |}
           eq_refl eq_refl eq_refl Hblank).
Defined.
